(** * DSB2018 [model.py]: segmentation architectures

    A shallow embedding of the network definitions of [model.py]:
    the building blocks ([DilatedConvBlock], [ConvBlock], [ConvUpBlock],
    [DeConvBlk], [dcanConv], [dcanDeConv]), the eight model classes, the
    factory [build_model] and [count_parameters].

    - Module construction ([__init__]) allocates [nn.Parameter] objects.
      It is a state-and-error computation over a store holding the mutable
      [requires_grad] flag of every parameter allocated so far; a parameter
      object is identified by its position in that store, so two attributes
      naming the same torch module share their parameters.
    - [forward] is written once, against an interface of tensor operations
      ([TensorOps]), in the error monad: an exception raised by torch (a
      shape mismatch, an output without elements) is [None].  A layer is a
      function of its input; what batch norm's running statistics and the
      dropout mask contribute is part of that function.
    - The interface is instantiated on tensor sizes, with the arithmetic
      torch performs on them, and on real-valued tensors, where the learned
      layers are arbitrary and [+] and the sigmoid are elementwise. *)

From Stdlib Require Import ZArith QArith Reals Lia Lra.
From stdpp Require Import base option list strings gmap.

Local Open Scope Z_scope.

(** ** Parameters and the construction monad *)

(** A [torch.nn.Parameter]: its identity and its (immutable) shape. *)
Record nn_Parameter := { pid : nat; pshape : list Z }.

#[global] Instance nn_Parameter_eq_dec : EqDecision nn_Parameter.
Proof. solve_decision. Defined.

(** [p.numel()] *)
Definition numel (p : nn_Parameter) : Z := foldr Z.mul 1 (pshape p).

(** The store: [requires_grad] of each parameter object, by identity. *)
Abbreviation Store := (list bool).

(** [p.requires_grad] *)
Definition requires_grad (σ : Store) (p : nn_Parameter) : bool :=
  default false (σ !! pid p).

(** [p.requires_grad = b] *)
Definition set_requires_grad (b : bool) (p : nn_Parameter) (σ : Store) : Store :=
  <[pid p := b]> σ.

Definition M (A : Type) : Type := Store → option (A * Store).

#[global] Instance M_ret : MRet M := λ A x σ, Some (x, σ).
#[global] Instance M_bind : MBind M := λ A B f m σ,
  match m σ with
  | Some (a, σ') => f a σ'
  | None => None
  end.

(** A failing lookup ([IndexError]) lifted into construction. *)
Definition lift_option {A} (o : option A) : M A :=
  λ σ, match o with Some a => Some (a, σ) | None => None end.

(** A fresh parameter; torch creates parameters with [requires_grad=True]. *)
Definition new_parameter (shape : list Z) : M nn_Parameter :=
  λ σ, Some ({| pid := length σ; pshape := shape |}, σ ++ [true]).

(** ** torch.nn layers *)

(** [nn.Conv2d(in, out, kernel_size, padding=, dilation=)], stride 1. *)
Record Conv2d := {
  conv_in : Z; conv_out : Z; conv_kernel : Z;
  conv_padding : Z; conv_dilation : Z;
  conv_weight : nn_Parameter; conv_bias : nn_Parameter }.

Definition nn_Conv2d (i o k padding dilation : Z) : M Conv2d :=
  w ← new_parameter [o; i; k; k];
  b ← new_parameter [o];
  mret {| conv_in := i; conv_out := o; conv_kernel := k;
          conv_padding := padding; conv_dilation := dilation;
          conv_weight := w; conv_bias := b |}.

(** [nn.ConvTranspose2d(in, out, kernel_size, stride=)] *)
Record ConvTranspose2d := {
  convt_in : Z; convt_out : Z; convt_kernel : Z; convt_stride : Z;
  convt_weight : nn_Parameter; convt_bias : nn_Parameter }.

Definition nn_ConvTranspose2d (i o k stride : Z) : M ConvTranspose2d :=
  w ← new_parameter [i; o; k; k];
  b ← new_parameter [o];
  mret {| convt_in := i; convt_out := o; convt_kernel := k;
          convt_stride := stride; convt_weight := w; convt_bias := b |}.

(** [nn.BatchNorm2d(num_features)]; the running statistics are buffers,
    not parameters. *)
Record BatchNorm2d := {
  bn_features : Z; bn_weight : nn_Parameter; bn_bias : nn_Parameter }.

Definition nn_BatchNorm2d (c : Z) : M BatchNorm2d :=
  w ← new_parameter [c];
  b ← new_parameter [c];
  mret {| bn_features := c; bn_weight := w; bn_bias := b |}.

(** [nn.MaxPool2d(kernel_size, stride)]; stride defaults to kernel_size. *)
Record MaxPool2d := { pool_kernel : Z; pool_stride : Z }.

Definition nn_MaxPool2d (k : Z) : MaxPool2d :=
  {| pool_kernel := k; pool_stride := k |}.

(** [nn.Linear(in_features, out_features)] *)
Record Linear := {
  lin_in : Z; lin_out : Z; lin_weight : nn_Parameter; lin_bias : nn_Parameter }.

Definition nn_Linear (i o : Z) : M Linear :=
  w ← new_parameter [o; i];
  b ← new_parameter [o];
  mret {| lin_in := i; lin_out := o; lin_weight := w; lin_bias := b |}.

(** A module that can sit in an [nn.Sequential] or in [vgg16.features]. *)
Inductive Layer :=
| LConv2d (c : Conv2d)
| LBatchNorm2d (b : BatchNorm2d)
| LReLU
| LMaxPool2d (p : MaxPool2d)
| LDropout2d (p : Q)
| LDropout (p : Q)
| LLinear (l : Linear).

Definition Conv2d_parameters (c : Conv2d) : list nn_Parameter :=
  [conv_weight c; conv_bias c].
Definition ConvTranspose2d_parameters (c : ConvTranspose2d) : list nn_Parameter :=
  [convt_weight c; convt_bias c].
Definition BatchNorm2d_parameters (b : BatchNorm2d) : list nn_Parameter :=
  [bn_weight b; bn_bias b].
Definition Linear_parameters (l : Linear) : list nn_Parameter :=
  [lin_weight l; lin_bias l].

Definition Layer_parameters (l : Layer) : list nn_Parameter :=
  match l with
  | LConv2d c => Conv2d_parameters c
  | LBatchNorm2d b => BatchNorm2d_parameters b
  | LLinear l => Linear_parameters l
  | LReLU | LMaxPool2d _ | LDropout2d _ | LDropout _ => []
  end.

Definition Sequential_parameters (ls : list Layer) : list nn_Parameter :=
  concat (map Layer_parameters ls).

(** ** Tensor operations *)

(** [x.size()] of a 4-dimensional tensor: [torch.Size([batch, channels,
    height, width])]. *)
Record Shape := Size { batch : Z; channels : Z; height : Z; width : Z }.

#[global] Instance Shape_eq_dec : EqDecision Shape.
Proof. solve_decision. Defined.

Class TensorOps (T : Type) := {
  size : T → Shape;
  conv2d : Conv2d → T → option T;
  conv_transpose2d : ConvTranspose2d → T → option T;
  batch_norm : BatchNorm2d → T → option T;
  max_pool2d : MaxPool2d → T → option T;
  linear : Linear → T → option T;
  relu : T → T;
  dropout2d : Q → T → T;
  dropout : Q → T → T;
  (** [torch.cat([a, b], 1)] *)
  cat1 : T → T → option T;
  (** [F.pad(x, (left, right, top, bottom))] *)
  pad : Z → Z → Z → Z → T → option T;
  (** [a + b] *)
  add : T → T → option T;
  sigmoid : T → T }.

Definition Layer_forward {T} `{TensorOps T} (l : Layer) (x : T) : option T :=
  match l with
  | LConv2d c => conv2d c x
  | LBatchNorm2d b => batch_norm b x
  | LReLU => Some (relu x)
  | LMaxPool2d p => max_pool2d p x
  | LDropout2d p => Some (dropout2d p x)
  | LDropout p => Some (dropout p x)
  | LLinear l => linear l x
  end.

(** [nn.Sequential.forward] *)
Fixpoint Sequential_forward {T} `{TensorOps T} (ls : list Layer) (x : T)
  : option T :=
  match ls with
  | [] => Some x
  | l :: ls => x ← Layer_forward l x; Sequential_forward ls x
  end.

(** ** The arithmetic torch performs on sizes *)

Module ShapeOps.

(** Output length of a stride-1 convolution along one axis. *)
Definition conv_out_len (k p d n : Z) : Z :=
  n + 2 * p - d * (k - 1) - 1 + 1.

(** A convolution with [i] input and [o] output channels, kernel [k],
    padding [p] and dilation [d]; torch refuses a channel mismatch and an
    output without elements. *)
Definition conv2d_size (i o k p d : Z) (s : Shape) : option Shape :=
  let h := conv_out_len k p d (height s) in
  let w := conv_out_len k p d (width s) in
  if bool_decide (channels s = i) && (0 <? h) && (0 <? w)
  then Some (Size (batch s) o h w)
  else None.

Definition conv2d (c : Conv2d) (s : Shape) : option Shape :=
  conv2d_size (conv_in c) (conv_out c) (conv_kernel c) (conv_padding c)
              (conv_dilation c) s.

Definition convt_out_len (k stride n : Z) : Z :=
  (n - 1) * stride + (k - 1) + 1.

Definition conv_transpose2d_size (i o k stride : Z) (s : Shape)
  : option Shape :=
  let h := convt_out_len k stride (height s) in
  let w := convt_out_len k stride (width s) in
  if bool_decide (channels s = i) && (0 <? h) && (0 <? w)
  then Some (Size (batch s) o h w)
  else None.

Definition conv_transpose2d (c : ConvTranspose2d) (s : Shape)
  : option Shape :=
  conv_transpose2d_size (convt_in c) (convt_out c) (convt_kernel c)
                        (convt_stride c) s.

Definition batch_norm_size (c : Z) (s : Shape) : option Shape :=
  if bool_decide (channels s = c) then Some s else None.

Definition batch_norm (b : BatchNorm2d) (s : Shape) : option Shape :=
  batch_norm_size (bn_features b) s.

(** Floor division, as in torch's pooling shape computation; an output
    without elements is refused. *)
Definition pool_out_len (k stride n : Z) : Z :=
  (n - (k - 1) - 1) `div` stride + 1.

Definition max_pool2d_size (k stride : Z) (s : Shape) : option Shape :=
  let h := pool_out_len k stride (height s) in
  let w := pool_out_len k stride (width s) in
  if (0 <? h) && (0 <? w)
  then Some (Size (batch s) (channels s) h w)
  else None.

Definition max_pool2d (p : MaxPool2d) (s : Shape) : option Shape :=
  max_pool2d_size (pool_kernel p) (pool_stride p) s.

(** [nn.Linear] acts on the last axis. *)
Definition linear_size (i o : Z) (s : Shape) : option Shape :=
  if bool_decide (width s = i)
  then Some (Size (batch s) (channels s) (height s) o)
  else None.

Definition linear (l : Linear) (s : Shape) : option Shape :=
  linear_size (lin_in l) (lin_out l) s.

Definition cat1 (a b : Shape) : option Shape :=
  if bool_decide (batch a = batch b) && bool_decide (height a = height b)
     && bool_decide (width a = width b)
  then Some (Size (batch a) (channels a + channels b) (height a) (width a))
  else None.

(** The first pair pads the last axis, the second pair the one before;
    negative amounts crop. *)
Definition pad (left right top bottom : Z) (s : Shape) : option Shape :=
  let h := height s + top + bottom in
  let w := width s + left + right in
  if (0 <=? h) && (0 <=? w)
  then Some (Size (batch s) (channels s) h w)
  else None.

(** Broadcasting of one axis. *)
Definition broadcast (a b : Z) : option Z :=
  if bool_decide (a = b) then Some a
  else if bool_decide (a = 1) then Some b
  else if bool_decide (b = 1) then Some a
  else None.

Definition add (a b : Shape) : option Shape :=
  n ← broadcast (batch a) (batch b);
  c ← broadcast (channels a) (channels b);
  h ← broadcast (height a) (height b);
  w ← broadcast (width a) (width b);
  Some (Size n c h w).

End ShapeOps.

#[global] Instance Shape_ops : TensorOps Shape := {|
  size s := s;
  conv2d := ShapeOps.conv2d;
  conv_transpose2d := ShapeOps.conv_transpose2d;
  batch_norm := ShapeOps.batch_norm;
  max_pool2d := ShapeOps.max_pool2d;
  linear := ShapeOps.linear;
  relu s := s;
  dropout2d _ s := s;
  dropout _ s := s;
  cat1 := ShapeOps.cat1;
  pad := ShapeOps.pad;
  add := ShapeOps.add;
  sigmoid s := s |}.

(** ** Building blocks *)

(** The [activation] argument of [DilatedConvBlock]; [model.py] only ever
    passes the default, [F.relu]. *)
Inductive Activation := F_relu.

(** [self.drop]: an [nn.Dropout2d] module, or the no-op lambda. *)
Inductive Drop := Dropout2d (p : Q) | no_op.

Record DilatedConvBlock := {
  dcb_conv : Conv2d;
  dcb_norm : BatchNorm2d;
  dcb_activation : Activation;
  dcb_drop : Drop }.

(** [DilatedConvBlock.__init__]; the Python defaults are
    [kernel_size=3, dropout_rate=0.1, activation=F.relu, dilation=1]. *)
Definition DilatedConvBlock_init (in_size out_size kernel_size : Z)
    (dropout_rate : Q) (activation : Activation) (dilation : Z)
  : M DilatedConvBlock :=
  conv ← nn_Conv2d in_size out_size kernel_size dilation dilation;
  norm ← nn_BatchNorm2d out_size;
  mret {| dcb_conv := conv; dcb_norm := norm; dcb_activation := activation;
          dcb_drop := match (dropout_rate ?= 0)%Q with
                      | Gt => Dropout2d dropout_rate
                      | _ => no_op
                      end |}.

Record ConvBlock := {
  cb_block1 : DilatedConvBlock;
  cb_block2 : DilatedConvBlock;
  cb_pool : MaxPool2d }.

(** [ConvBlock.__init__]; defaults [dropout_rate=0.2, dilation=1]. *)
Definition ConvBlock_init (in_size out_size : Z) (dropout_rate : Q)
    (dilation : Z) : M ConvBlock :=
  block1 ← DilatedConvBlock_init in_size out_size 3 0 F_relu 1;
  block2 ← DilatedConvBlock_init out_size out_size 3 dropout_rate F_relu
             dilation;
  mret {| cb_block1 := block1; cb_block2 := block2;
          cb_pool := nn_MaxPool2d 2 |}.

Record ConvUpBlock := {
  cub_up : ConvTranspose2d;
  cub_block1 : DilatedConvBlock;
  cub_block2 : DilatedConvBlock }.

(** [ConvUpBlock.__init__]; defaults [dropout_rate=0.2, dilation=1]. *)
Definition ConvUpBlock_init (in_size out_size : Z) (dropout_rate : Q)
    (dilation : Z) : M ConvUpBlock :=
  up ← nn_ConvTranspose2d in_size out_size 2 2;
  block1 ← DilatedConvBlock_init in_size out_size 3 0 F_relu 1;
  block2 ← DilatedConvBlock_init out_size out_size 3 dropout_rate F_relu
             dilation;
  mret {| cub_up := up; cub_block1 := block1; cub_block2 := block2 |}.

Record DeConvBlk := {
  dcv_upscaling : ConvTranspose2d;
  dcv_convs : list Layer }.

(** [DeConvBlk.__init__]; default [dropout_ratio=0.2]. *)
Definition DeConvBlk_init (in_ch out_ch : Z) (dropout_ratio : Q)
  : M DeConvBlk :=
  upscaling ← nn_ConvTranspose2d in_ch (in_ch `div` 2) 2 2;
  conv_a ← nn_Conv2d (in_ch `div` 2 + out_ch) out_ch 3 1 1;
  norm_a ← nn_BatchNorm2d out_ch;
  conv_b ← nn_Conv2d out_ch out_ch 3 1 1;
  norm_b ← nn_BatchNorm2d out_ch;
  mret {| dcv_upscaling := upscaling;
          dcv_convs := [LConv2d conv_a; LReLU; LBatchNorm2d norm_a;
                        LDropout2d dropout_ratio;
                        LConv2d conv_b; LReLU; LBatchNorm2d norm_b;
                        LDropout2d dropout_ratio] |}.

Record outConv := { oc_conv : Conv2d }.

Definition outConv_init (in_ch out_ch : Z) : M outConv :=
  conv ← nn_Conv2d in_ch out_ch 1 0 1;
  mret {| oc_conv := conv |}.

Record dcanConv := { dc_conv : list Layer }.

(** [dcanConv.__init__]; default [dropout_ratio=0.2]. *)
Definition dcanConv_init (in_ch out_ch : Z) (dropout_ratio : Q)
  : M dcanConv :=
  conv ← nn_Conv2d in_ch out_ch 3 1 1;
  norm ← nn_BatchNorm2d out_ch;
  mret {| dc_conv := [LConv2d conv; LReLU; LBatchNorm2d norm;
                      LDropout2d dropout_ratio] |}.

Record dcanDeConv := {
  dd_upscaling : ConvTranspose2d;
  dd_conv : dcanConv }.

(** [dcanDeConv.__init__]; default [dropout_ratio=0.2]. *)
Definition dcanDeConv_init (in_ch out_ch upscale_factor : Z)
    (dropout_ratio : Q) : M dcanDeConv :=
  upscaling ← nn_ConvTranspose2d in_ch out_ch upscale_factor upscale_factor;
  conv ← dcanConv_init out_ch out_ch dropout_ratio;
  mret {| dd_upscaling := upscaling; dd_conv := conv |}.

Section BlockForward.
Context {T : Type} `{TensorOps T}.

Definition apply_activation (a : Activation) (x : T) : T :=
  match a with F_relu => relu x end.

Definition apply_drop (d : Drop) (x : T) : T :=
  match d with
  | Dropout2d p => dropout2d p x
  | no_op => x
  end.

Definition DilatedConvBlock_forward (m : DilatedConvBlock) (x : T)
  : option T :=
  x ← conv2d (dcb_conv m) x;
  x ← batch_norm (dcb_norm m) (apply_activation (dcb_activation m) x);
  Some (apply_drop (dcb_drop m) x).

(** Returns [(self.pool(x), x)]. *)
Definition ConvBlock_forward (m : ConvBlock) (x : T) : option (T * T) :=
  x ← DilatedConvBlock_forward (cb_block1 m) x;
  x ← DilatedConvBlock_forward (cb_block2 m) x;
  p ← max_pool2d (cb_pool m) x;
  Some (p, x).

Definition ConvUpBlock_forward (m : ConvUpBlock) (x bridge : T) : option T :=
  x ← conv_transpose2d (cub_up m) x;
  x ← cat1 x bridge;
  x ← DilatedConvBlock_forward (cub_block1 m) x;
  DilatedConvBlock_forward (cub_block2 m) x.

(** [//] is floor division; [int(d / 2)] truncates towards zero. *)
Definition DeConvBlk_forward (m : DeConvBlk) (x1 x2 : T) : option T :=
  x1 ← conv_transpose2d (dcv_upscaling m) x1;
  let diffX := height (size x1) - height (size x2) in
  let diffY := width (size x1) - width (size x2) in
  x2 ← pad (diffX `div` 2) (diffX `quot` 2) (diffY `div` 2) (diffY `quot` 2)
         x2;
  x ← cat1 x1 x2;
  Sequential_forward (dcv_convs m) x.

Definition outConv_forward (m : outConv) (x : T) : option T :=
  conv2d (oc_conv m) x.

Definition dcanConv_forward (m : dcanConv) (x : T) : option T :=
  Sequential_forward (dc_conv m) x.

Definition dcanDeConv_forward (m : dcanDeConv) (x : T) : option T :=
  x ← conv_transpose2d (dd_upscaling m) x;
  dcanConv_forward (dd_conv m) x.

End BlockForward.

Definition DilatedConvBlock_parameters (m : DilatedConvBlock)
  : list nn_Parameter :=
  Conv2d_parameters (dcb_conv m) ++ BatchNorm2d_parameters (dcb_norm m).

Definition ConvBlock_parameters (m : ConvBlock) : list nn_Parameter :=
  DilatedConvBlock_parameters (cb_block1 m)
  ++ DilatedConvBlock_parameters (cb_block2 m).

Definition ConvUpBlock_parameters (m : ConvUpBlock) : list nn_Parameter :=
  ConvTranspose2d_parameters (cub_up m)
  ++ DilatedConvBlock_parameters (cub_block1 m)
  ++ DilatedConvBlock_parameters (cub_block2 m).

Definition DeConvBlk_parameters (m : DeConvBlk) : list nn_Parameter :=
  ConvTranspose2d_parameters (dcv_upscaling m)
  ++ Sequential_parameters (dcv_convs m).

Definition outConv_parameters (m : outConv) : list nn_Parameter :=
  Conv2d_parameters (oc_conv m).

Definition dcanConv_parameters (m : dcanConv) : list nn_Parameter :=
  Sequential_parameters (dc_conv m).

Definition dcanDeConv_parameters (m : dcanDeConv) : list nn_Parameter :=
  ConvTranspose2d_parameters (dd_upscaling m)
  ++ dcanConv_parameters (dd_conv m).

(** ** The U-Net family *)

Record UNet := {
  UNet_c1 : ConvBlock; UNet_c2 : ConvBlock; UNet_c3 : ConvBlock;
  UNet_c4 : ConvBlock;
  UNet_cu : ConvBlock;
  UNet_u5 : ConvUpBlock; UNet_u6 : ConvUpBlock; UNet_u7 : ConvUpBlock;
  UNet_u8 : ConvUpBlock;
  UNet_ce : Conv2d }.

Definition UNet_init : M UNet :=
  c1 ← ConvBlock_init 3 16 (2#10) 1;
  c2 ← ConvBlock_init 16 32 (2#10) 1;
  c3 ← ConvBlock_init 32 64 (2#10) 1;
  c4 ← ConvBlock_init 64 128 (2#10) 1;
  cu ← ConvBlock_init 128 256 (2#10) 1;
  u5 ← ConvUpBlock_init 256 128 (2#10) 1;
  u6 ← ConvUpBlock_init 128 64 (2#10) 1;
  u7 ← ConvUpBlock_init 64 32 (2#10) 1;
  u8 ← ConvUpBlock_init 32 16 (2#10) 1;
  ce ← nn_Conv2d 16 1 1 0 1;
  mret {| UNet_c1 := c1; UNet_c2 := c2; UNet_c3 := c3; UNet_c4 := c4;
          UNet_cu := cu; UNet_u5 := u5; UNet_u6 := u6; UNet_u7 := u7;
          UNet_u8 := u8; UNet_ce := ce |}.

Record DUNet := {
  DUNet_c1 : ConvBlock; DUNet_c2 : ConvBlock; DUNet_c3 : ConvBlock;
  DUNet_c4 : ConvBlock;
  DUNet_d1 : DilatedConvBlock; DUNet_d2 : DilatedConvBlock;
  DUNet_d3 : DilatedConvBlock; DUNet_d4 : DilatedConvBlock;
  DUNet_u5 : ConvUpBlock; DUNet_u6 : ConvUpBlock; DUNet_u7 : ConvUpBlock;
  DUNet_u8 : ConvUpBlock;
  DUNet_ce : Conv2d }.

Definition DUNet_init : M DUNet :=
  c1 ← ConvBlock_init 3 16 (2#10) 2;
  c2 ← ConvBlock_init 16 32 (2#10) 2;
  c3 ← ConvBlock_init 32 64 (2#10) 2;
  c4 ← ConvBlock_init 64 128 (2#10) 2;
  d1 ← DilatedConvBlock_init 128 256 3 (1#10) F_relu 1;
  d2 ← DilatedConvBlock_init 256 256 3 (1#10) F_relu 2;
  d3 ← DilatedConvBlock_init 256 256 3 (1#10) F_relu 4;
  d4 ← DilatedConvBlock_init 256 256 3 (1#10) F_relu 8;
  u5 ← ConvUpBlock_init 256 128 (2#10) 1;
  u6 ← ConvUpBlock_init 128 64 (2#10) 1;
  u7 ← ConvUpBlock_init 64 32 (2#10) 1;
  u8 ← ConvUpBlock_init 32 16 (2#10) 1;
  ce ← nn_Conv2d 16 1 1 0 1;
  mret {| DUNet_c1 := c1; DUNet_c2 := c2; DUNet_c3 := c3; DUNet_c4 := c4;
          DUNet_d1 := d1; DUNet_d2 := d2; DUNet_d3 := d3; DUNet_d4 := d4;
          DUNet_u5 := u5; DUNet_u6 := u6; DUNet_u7 := u7; DUNet_u8 := u8;
          DUNet_ce := ce |}.

(** Contour Aware UNet *)
Record CAUNet := {
  CAUNet_c1 : ConvBlock; CAUNet_c2 : ConvBlock; CAUNet_c3 : ConvBlock;
  CAUNet_c4 : ConvBlock;
  CAUNet_cu : ConvBlock;
  CAUNet_u5s : ConvUpBlock; CAUNet_u6s : ConvUpBlock;
  CAUNet_u7s : ConvUpBlock; CAUNet_u8s : ConvUpBlock;
  CAUNet_ces : Conv2d;
  CAUNet_u5c : ConvUpBlock; CAUNet_u6c : ConvUpBlock;
  CAUNet_u7c : ConvUpBlock; CAUNet_u8c : ConvUpBlock;
  CAUNet_cec : Conv2d }.

Definition CAUNet_init : M CAUNet :=
  c1 ← ConvBlock_init 3 16 (2#10) 1;
  c2 ← ConvBlock_init 16 32 (2#10) 1;
  c3 ← ConvBlock_init 32 64 (2#10) 1;
  c4 ← ConvBlock_init 64 128 (2#10) 1;
  cu ← ConvBlock_init 128 256 (2#10) 1;
  u5s ← ConvUpBlock_init 256 128 (2#10) 1;
  u6s ← ConvUpBlock_init 128 64 (2#10) 1;
  u7s ← ConvUpBlock_init 64 32 (2#10) 1;
  u8s ← ConvUpBlock_init 32 16 (2#10) 1;
  ces ← nn_Conv2d 16 1 1 0 1;
  u5c ← ConvUpBlock_init 256 128 (2#10) 1;
  u6c ← ConvUpBlock_init 128 64 (2#10) 1;
  u7c ← ConvUpBlock_init 64 32 (2#10) 1;
  u8c ← ConvUpBlock_init 32 16 (2#10) 1;
  cec ← nn_Conv2d 16 1 1 0 1;
  mret {| CAUNet_c1 := c1; CAUNet_c2 := c2; CAUNet_c3 := c3;
          CAUNet_c4 := c4; CAUNet_cu := cu;
          CAUNet_u5s := u5s; CAUNet_u6s := u6s; CAUNet_u7s := u7s;
          CAUNet_u8s := u8s; CAUNet_ces := ces;
          CAUNet_u5c := u5c; CAUNet_u6c := u6c; CAUNet_u7c := u7c;
          CAUNet_u8c := u8c; CAUNet_cec := cec |}.

(** Contour Aware Dilated UNet *)
Record CADUNet := {
  CADUNet_c1 : ConvBlock; CADUNet_c2 : ConvBlock; CADUNet_c3 : ConvBlock;
  CADUNet_c4 : ConvBlock;
  CADUNet_d1 : DilatedConvBlock; CADUNet_d2 : DilatedConvBlock;
  CADUNet_d3 : DilatedConvBlock; CADUNet_d4 : DilatedConvBlock;
  CADUNet_u5s : ConvUpBlock; CADUNet_u6s : ConvUpBlock;
  CADUNet_u7s : ConvUpBlock; CADUNet_u8s : ConvUpBlock;
  CADUNet_ces : Conv2d;
  CADUNet_u5c : ConvUpBlock; CADUNet_u6c : ConvUpBlock;
  CADUNet_u7c : ConvUpBlock; CADUNet_u8c : ConvUpBlock;
  CADUNet_cec : Conv2d }.

Definition CADUNet_init : M CADUNet :=
  c1 ← ConvBlock_init 3 16 (2#10) 2;
  c2 ← ConvBlock_init 16 32 (2#10) 2;
  c3 ← ConvBlock_init 32 64 (2#10) 2;
  c4 ← ConvBlock_init 64 128 (2#10) 2;
  d1 ← DilatedConvBlock_init 128 256 3 (1#10) F_relu 1;
  d2 ← DilatedConvBlock_init 256 256 3 (1#10) F_relu 2;
  d3 ← DilatedConvBlock_init 256 256 3 (1#10) F_relu 4;
  d4 ← DilatedConvBlock_init 256 256 3 (1#10) F_relu 8;
  u5s ← ConvUpBlock_init 256 128 (2#10) 1;
  u6s ← ConvUpBlock_init 128 64 (2#10) 1;
  u7s ← ConvUpBlock_init 64 32 (2#10) 1;
  u8s ← ConvUpBlock_init 32 16 (2#10) 1;
  ces ← nn_Conv2d 16 1 1 0 1;
  u5c ← ConvUpBlock_init 256 128 (2#10) 1;
  u6c ← ConvUpBlock_init 128 64 (2#10) 1;
  u7c ← ConvUpBlock_init 64 32 (2#10) 1;
  u8c ← ConvUpBlock_init 32 16 (2#10) 1;
  cec ← nn_Conv2d 16 1 1 0 1;
  mret {| CADUNet_c1 := c1; CADUNet_c2 := c2; CADUNet_c3 := c3;
          CADUNet_c4 := c4;
          CADUNet_d1 := d1; CADUNet_d2 := d2; CADUNet_d3 := d3;
          CADUNet_d4 := d4;
          CADUNet_u5s := u5s; CADUNet_u6s := u6s; CADUNet_u7s := u7s;
          CADUNet_u8s := u8s; CADUNet_ces := ces;
          CADUNet_u5c := u5c; CADUNet_u6c := u6c; CADUNet_u7c := u7c;
          CADUNet_u8c := u8c; CADUNet_cec := cec |}.

(** Contour Aware Marker Unet *)
Record CAMUNet := {
  CAMUNet_c1 : ConvBlock; CAMUNet_c2 : ConvBlock; CAMUNet_c3 : ConvBlock;
  CAMUNet_c4 : ConvBlock;
  CAMUNet_cu : ConvBlock;
  CAMUNet_u5s : ConvUpBlock; CAMUNet_u6s : ConvUpBlock;
  CAMUNet_u7s : ConvUpBlock; CAMUNet_u8s : ConvUpBlock;
  CAMUNet_ces : Conv2d;
  CAMUNet_u5c : ConvUpBlock; CAMUNet_u6c : ConvUpBlock;
  CAMUNet_u7c : ConvUpBlock; CAMUNet_u8c : ConvUpBlock;
  CAMUNet_cec : Conv2d;
  CAMUNet_u5m : ConvUpBlock; CAMUNet_u6m : ConvUpBlock;
  CAMUNet_u7m : ConvUpBlock; CAMUNet_u8m : ConvUpBlock;
  CAMUNet_cem : Conv2d }.

Definition CAMUNet_init : M CAMUNet :=
  c1 ← ConvBlock_init 3 16 (2#10) 1;
  c2 ← ConvBlock_init 16 32 (2#10) 1;
  c3 ← ConvBlock_init 32 64 (2#10) 1;
  c4 ← ConvBlock_init 64 128 (2#10) 1;
  cu ← ConvBlock_init 128 256 (2#10) 1;
  u5s ← ConvUpBlock_init 256 128 (2#10) 1;
  u6s ← ConvUpBlock_init 128 64 (2#10) 1;
  u7s ← ConvUpBlock_init 64 32 (2#10) 1;
  u8s ← ConvUpBlock_init 32 16 (2#10) 1;
  ces ← nn_Conv2d 16 1 1 0 1;
  u5c ← ConvUpBlock_init 256 128 (2#10) 1;
  u6c ← ConvUpBlock_init 128 64 (2#10) 1;
  u7c ← ConvUpBlock_init 64 32 (2#10) 1;
  u8c ← ConvUpBlock_init 32 16 (2#10) 1;
  cec ← nn_Conv2d 16 1 1 0 1;
  u5m ← ConvUpBlock_init 256 128 (2#10) 1;
  u6m ← ConvUpBlock_init 128 64 (2#10) 1;
  u7m ← ConvUpBlock_init 64 32 (2#10) 1;
  u8m ← ConvUpBlock_init 32 16 (2#10) 1;
  cem ← nn_Conv2d 16 1 1 0 1;
  mret {| CAMUNet_c1 := c1; CAMUNet_c2 := c2; CAMUNet_c3 := c3;
          CAMUNet_c4 := c4; CAMUNet_cu := cu;
          CAMUNet_u5s := u5s; CAMUNet_u6s := u6s; CAMUNet_u7s := u7s;
          CAMUNet_u8s := u8s; CAMUNet_ces := ces;
          CAMUNet_u5c := u5c; CAMUNet_u6c := u6c; CAMUNet_u7c := u7c;
          CAMUNet_u8c := u8c; CAMUNet_cec := cec;
          CAMUNet_u5m := u5m; CAMUNet_u6m := u6m; CAMUNet_u7m := u7m;
          CAMUNet_u8m := u8m; CAMUNet_cem := cem |}.

(** Contour Aware Marker Dilated Unet *)
Record CAMDUNet := {
  CAMDUNet_c1 : ConvBlock; CAMDUNet_c2 : ConvBlock; CAMDUNet_c3 : ConvBlock;
  CAMDUNet_c4 : ConvBlock;
  CAMDUNet_d1 : DilatedConvBlock; CAMDUNet_d2 : DilatedConvBlock;
  CAMDUNet_d3 : DilatedConvBlock; CAMDUNet_d4 : DilatedConvBlock;
  CAMDUNet_u5s : ConvUpBlock; CAMDUNet_u6s : ConvUpBlock;
  CAMDUNet_u7s : ConvUpBlock; CAMDUNet_u8s : ConvUpBlock;
  CAMDUNet_ces : Conv2d;
  CAMDUNet_u5c : ConvUpBlock; CAMDUNet_u6c : ConvUpBlock;
  CAMDUNet_u7c : ConvUpBlock; CAMDUNet_u8c : ConvUpBlock;
  CAMDUNet_cec : Conv2d;
  CAMDUNet_u5m : ConvUpBlock; CAMDUNet_u6m : ConvUpBlock;
  CAMDUNet_u7m : ConvUpBlock; CAMDUNet_u8m : ConvUpBlock;
  CAMDUNet_cem : Conv2d }.

Definition CAMDUNet_init : M CAMDUNet :=
  c1 ← ConvBlock_init 3 16 (2#10) 2;
  c2 ← ConvBlock_init 16 32 (2#10) 2;
  c3 ← ConvBlock_init 32 64 (2#10) 2;
  c4 ← ConvBlock_init 64 128 (2#10) 2;
  d1 ← DilatedConvBlock_init 128 256 3 (1#10) F_relu 1;
  d2 ← DilatedConvBlock_init 256 256 3 (1#10) F_relu 2;
  d3 ← DilatedConvBlock_init 256 256 3 (1#10) F_relu 4;
  d4 ← DilatedConvBlock_init 256 256 3 (1#10) F_relu 8;
  u5s ← ConvUpBlock_init 256 128 (2#10) 1;
  u6s ← ConvUpBlock_init 128 64 (2#10) 1;
  u7s ← ConvUpBlock_init 64 32 (2#10) 1;
  u8s ← ConvUpBlock_init 32 16 (2#10) 1;
  ces ← nn_Conv2d 16 1 1 0 1;
  u5c ← ConvUpBlock_init 256 128 (2#10) 1;
  u6c ← ConvUpBlock_init 128 64 (2#10) 1;
  u7c ← ConvUpBlock_init 64 32 (2#10) 1;
  u8c ← ConvUpBlock_init 32 16 (2#10) 1;
  cec ← nn_Conv2d 16 1 1 0 1;
  u5m ← ConvUpBlock_init 256 128 (2#10) 1;
  u6m ← ConvUpBlock_init 128 64 (2#10) 1;
  u7m ← ConvUpBlock_init 64 32 (2#10) 1;
  u8m ← ConvUpBlock_init 32 16 (2#10) 1;
  cem ← nn_Conv2d 16 1 1 0 1;
  mret {| CAMDUNet_c1 := c1; CAMDUNet_c2 := c2; CAMDUNet_c3 := c3;
          CAMDUNet_c4 := c4;
          CAMDUNet_d1 := d1; CAMDUNet_d2 := d2; CAMDUNet_d3 := d3;
          CAMDUNet_d4 := d4;
          CAMDUNet_u5s := u5s; CAMDUNet_u6s := u6s; CAMDUNet_u7s := u7s;
          CAMDUNet_u8s := u8s; CAMDUNet_ces := ces;
          CAMDUNet_u5c := u5c; CAMDUNet_u6c := u6c; CAMDUNet_u7c := u7c;
          CAMDUNet_u8c := u8c; CAMDUNet_cec := cec;
          CAMDUNet_u5m := u5m; CAMDUNet_u6m := u6m; CAMDUNet_u7m := u7m;
          CAMDUNet_u8m := u8m; CAMDUNet_cem := cem |}.

Section UNetForward.
Context {T : Type} `{TensorOps T}.

Definition UNet_forward (m : UNet) (x : T) : option T :=
  '(x, c1) ← ConvBlock_forward (UNet_c1 m) x;
  '(x, c2) ← ConvBlock_forward (UNet_c2 m) x;
  '(x, c3) ← ConvBlock_forward (UNet_c3 m) x;
  '(x, c4) ← ConvBlock_forward (UNet_c4 m) x;
  '(_, x) ← ConvBlock_forward (UNet_cu m) x;
  x ← ConvUpBlock_forward (UNet_u5 m) x c4;
  x ← ConvUpBlock_forward (UNet_u6 m) x c3;
  x ← ConvUpBlock_forward (UNet_u7 m) x c2;
  x ← ConvUpBlock_forward (UNet_u8 m) x c1;
  x ← conv2d (UNet_ce m) x;
  Some (sigmoid x).

Definition DUNet_forward (m : DUNet) (x : T) : option T :=
  '(x, c1) ← ConvBlock_forward (DUNet_c1 m) x;
  '(x, c2) ← ConvBlock_forward (DUNet_c2 m) x;
  '(x, c3) ← ConvBlock_forward (DUNet_c3 m) x;
  '(x, c4) ← ConvBlock_forward (DUNet_c4 m) x;
  x ← DilatedConvBlock_forward (DUNet_d1 m) x;
  x ← DilatedConvBlock_forward (DUNet_d2 m) x;
  x ← DilatedConvBlock_forward (DUNet_d3 m) x;
  x ← DilatedConvBlock_forward (DUNet_d4 m) x;
  x ← ConvUpBlock_forward (DUNet_u5 m) x c4;
  x ← ConvUpBlock_forward (DUNet_u6 m) x c3;
  x ← ConvUpBlock_forward (DUNet_u7 m) x c2;
  x ← ConvUpBlock_forward (DUNet_u8 m) x c1;
  x ← conv2d (DUNet_ce m) x;
  Some (sigmoid x).

Definition CAUNet_forward (m : CAUNet) (x : T) : option (T * T) :=
  '(x, c1) ← ConvBlock_forward (CAUNet_c1 m) x;
  '(x, c2) ← ConvBlock_forward (CAUNet_c2 m) x;
  '(x, c3) ← ConvBlock_forward (CAUNet_c3 m) x;
  '(x, c4) ← ConvBlock_forward (CAUNet_c4 m) x;
  '(_, x) ← ConvBlock_forward (CAUNet_cu m) x;
  xs ← ConvUpBlock_forward (CAUNet_u5s m) x c4;
  xs ← ConvUpBlock_forward (CAUNet_u6s m) xs c3;
  xs ← ConvUpBlock_forward (CAUNet_u7s m) xs c2;
  xs ← ConvUpBlock_forward (CAUNet_u8s m) xs c1;
  xs ← conv2d (CAUNet_ces m) xs;
  let xs := sigmoid xs in
  xc ← ConvUpBlock_forward (CAUNet_u5c m) x c4;
  xc ← ConvUpBlock_forward (CAUNet_u6c m) xc c3;
  xc ← ConvUpBlock_forward (CAUNet_u7c m) xc c2;
  xc ← ConvUpBlock_forward (CAUNet_u8c m) xc c1;
  xc ← conv2d (CAUNet_cec m) xc;
  let xc := sigmoid xc in
  Some (xs, xc).

Definition CADUNet_forward (m : CADUNet) (x : T) : option (T * T) :=
  '(x, c1) ← ConvBlock_forward (CADUNet_c1 m) x;
  '(x, c2) ← ConvBlock_forward (CADUNet_c2 m) x;
  '(x, c3) ← ConvBlock_forward (CADUNet_c3 m) x;
  '(x, c4) ← ConvBlock_forward (CADUNet_c4 m) x;
  x ← DilatedConvBlock_forward (CADUNet_d1 m) x;
  x ← DilatedConvBlock_forward (CADUNet_d2 m) x;
  x ← DilatedConvBlock_forward (CADUNet_d3 m) x;
  x ← DilatedConvBlock_forward (CADUNet_d4 m) x;
  xs ← ConvUpBlock_forward (CADUNet_u5s m) x c4;
  xs ← ConvUpBlock_forward (CADUNet_u6s m) xs c3;
  xs ← ConvUpBlock_forward (CADUNet_u7s m) xs c2;
  xs ← ConvUpBlock_forward (CADUNet_u8s m) xs c1;
  xs ← conv2d (CADUNet_ces m) xs;
  let xs := sigmoid xs in
  xc ← ConvUpBlock_forward (CADUNet_u5c m) x c4;
  xc ← ConvUpBlock_forward (CADUNet_u6c m) xc c3;
  xc ← ConvUpBlock_forward (CADUNet_u7c m) xc c2;
  xc ← ConvUpBlock_forward (CADUNet_u8c m) xc c1;
  xc ← conv2d (CADUNet_cec m) xc;
  let xc := sigmoid xc in
  Some (xs, xc).

Definition CAMUNet_forward (m : CAMUNet) (x : T) : option (T * T * T) :=
  '(x, c1) ← ConvBlock_forward (CAMUNet_c1 m) x;
  '(x, c2) ← ConvBlock_forward (CAMUNet_c2 m) x;
  '(x, c3) ← ConvBlock_forward (CAMUNet_c3 m) x;
  '(x, c4) ← ConvBlock_forward (CAMUNet_c4 m) x;
  '(_, x) ← ConvBlock_forward (CAMUNet_cu m) x;
  xs ← ConvUpBlock_forward (CAMUNet_u5s m) x c4;
  xs ← ConvUpBlock_forward (CAMUNet_u6s m) xs c3;
  xs ← ConvUpBlock_forward (CAMUNet_u7s m) xs c2;
  xs ← ConvUpBlock_forward (CAMUNet_u8s m) xs c1;
  xs ← conv2d (CAMUNet_ces m) xs;
  let xs := sigmoid xs in
  xc ← ConvUpBlock_forward (CAMUNet_u5c m) x c4;
  xc ← ConvUpBlock_forward (CAMUNet_u6c m) xc c3;
  xc ← ConvUpBlock_forward (CAMUNet_u7c m) xc c2;
  xc ← ConvUpBlock_forward (CAMUNet_u8c m) xc c1;
  xc ← conv2d (CAMUNet_cec m) xc;
  let xc := sigmoid xc in
  xm ← ConvUpBlock_forward (CAMUNet_u5m m) x c4;
  xm ← ConvUpBlock_forward (CAMUNet_u6m m) xm c3;
  xm ← ConvUpBlock_forward (CAMUNet_u7m m) xm c2;
  xm ← ConvUpBlock_forward (CAMUNet_u8m m) xm c1;
  xm ← conv2d (CAMUNet_cem m) xm;
  let xm := sigmoid xm in
  Some (xs, xc, xm).

Definition CAMDUNet_forward (m : CAMDUNet) (x : T) : option (T * T * T) :=
  '(x, c1) ← ConvBlock_forward (CAMDUNet_c1 m) x;
  '(x, c2) ← ConvBlock_forward (CAMDUNet_c2 m) x;
  '(x, c3) ← ConvBlock_forward (CAMDUNet_c3 m) x;
  '(x, c4) ← ConvBlock_forward (CAMDUNet_c4 m) x;
  x ← DilatedConvBlock_forward (CAMDUNet_d1 m) x;
  x ← DilatedConvBlock_forward (CAMDUNet_d2 m) x;
  x ← DilatedConvBlock_forward (CAMDUNet_d3 m) x;
  x ← DilatedConvBlock_forward (CAMDUNet_d4 m) x;
  xs ← ConvUpBlock_forward (CAMDUNet_u5s m) x c4;
  xs ← ConvUpBlock_forward (CAMDUNet_u6s m) xs c3;
  xs ← ConvUpBlock_forward (CAMDUNet_u7s m) xs c2;
  xs ← ConvUpBlock_forward (CAMDUNet_u8s m) xs c1;
  xs ← conv2d (CAMDUNet_ces m) xs;
  let xs := sigmoid xs in
  xc ← ConvUpBlock_forward (CAMDUNet_u5c m) x c4;
  xc ← ConvUpBlock_forward (CAMDUNet_u6c m) xc c3;
  xc ← ConvUpBlock_forward (CAMDUNet_u7c m) xc c2;
  xc ← ConvUpBlock_forward (CAMDUNet_u8c m) xc c1;
  xc ← conv2d (CAMDUNet_cec m) xc;
  let xc := sigmoid xc in
  xm ← ConvUpBlock_forward (CAMDUNet_u5m m) x c4;
  xm ← ConvUpBlock_forward (CAMDUNet_u6m m) xm c3;
  xm ← ConvUpBlock_forward (CAMDUNet_u7m m) xm c2;
  xm ← ConvUpBlock_forward (CAMDUNet_u8m m) xm c1;
  xm ← conv2d (CAMDUNet_cem m) xm;
  let xm := sigmoid xm in
  Some (xs, xc, xm).

End UNetForward.

(** ** The VGG16 backbone and [UNetVgg16] *)

Inductive vgg_cfg := cfg_conv (v : Z) | cfg_M.

(** Modelled from the spec: [torchvision.models.vgg16_bn] is not part of
    [model.py].  The five convolutional groups have widths 64/128/256/512/512
    with batch norm and rectified-linear activation, interleaved with
    max-pooling; this is torchvision's configuration "D", which puts the
    convolutions and batch norms at the indices [UNetVgg16.__init__] reads. *)
Definition cfg_D : list vgg_cfg :=
  [cfg_conv 64; cfg_conv 64; cfg_M;
   cfg_conv 128; cfg_conv 128; cfg_M;
   cfg_conv 256; cfg_conv 256; cfg_conv 256; cfg_M;
   cfg_conv 512; cfg_conv 512; cfg_conv 512; cfg_M;
   cfg_conv 512; cfg_conv 512; cfg_conv 512; cfg_M].

(** Modelled from the spec: torchvision's [make_layers(cfg, batch_norm=True)],
    one convolution (kernel 3, padding 1), batch norm and ReLU per width and
    one 2x2 max-pooling per ["M"]. *)
Fixpoint make_layers (cfg : list vgg_cfg) (in_channels : Z)
  : M (list Layer) :=
  match cfg with
  | [] => mret []
  | cfg_M :: cfg =>
      rest ← make_layers cfg in_channels;
      mret (LMaxPool2d {| pool_kernel := 2; pool_stride := 2 |} :: rest)
  | cfg_conv v :: cfg =>
      conv ← nn_Conv2d in_channels v 3 1 1;
      norm ← nn_BatchNorm2d v;
      rest ← make_layers cfg v;
      mret (LConv2d conv :: LBatchNorm2d norm :: LReLU :: rest)
  end.

Record VGG := { vgg_features : list Layer; vgg_classifier : list Layer }.

(** Modelled from the spec: torchvision's [vgg16_bn(pretrained=True)], the
    feature layers above followed by a classifier.  The classifier is
    torchvision's (three linear layers); [model.py] never runs it, but
    its parameters belong to [self.vgg16].  Loading the pretrained weights
    changes values only; every parameter is created with
    [requires_grad=True]. *)
Definition vgg16_bn : M VGG :=
  features ← make_layers cfg_D 3;
  fc1 ← nn_Linear (512 * 7 * 7) 4096;
  fc2 ← nn_Linear 4096 4096;
  fc3 ← nn_Linear 4096 1000;
  mret {| vgg_features := features;
          vgg_classifier := [LLinear fc1; LReLU; LDropout (1#2);
                             LLinear fc2; LReLU; LDropout (1#2);
                             LLinear fc3] |}.

Definition VGG_parameters (m : VGG) : list nn_Parameter :=
  Sequential_parameters (vgg_features m)
  ++ Sequential_parameters (vgg_classifier m).

(** [for param in ps: param.requires_grad = b] *)
Definition set_all_requires_grad (b : bool) (ps : list nn_Parameter)
  : M unit :=
  λ σ, Some ((), foldl (λ σ p, set_requires_grad b p σ) σ ps).

Record UNetVgg16 := {
  UNetVgg16_maxpool : MaxPool2d;
  UNetVgg16_vgg16 : VGG;
  UNetVgg16_conv1a : Layer; UNetVgg16_bn1a : Layer;
  UNetVgg16_conv1b : Layer; UNetVgg16_bn1b : Layer;
  UNetVgg16_conv2a : Layer; UNetVgg16_bn2a : Layer;
  UNetVgg16_conv2b : Layer; UNetVgg16_bn2b : Layer;
  UNetVgg16_conv3a : Layer; UNetVgg16_bn3a : Layer;
  UNetVgg16_conv3b : Layer; UNetVgg16_bn3b : Layer;
  UNetVgg16_conv3c : Layer; UNetVgg16_bn3c : Layer;
  UNetVgg16_conv4a : Layer; UNetVgg16_bn4a : Layer;
  UNetVgg16_conv4b : Layer; UNetVgg16_bn4b : Layer;
  UNetVgg16_conv4c : Layer; UNetVgg16_bn4c : Layer;
  UNetVgg16_conv5a : Layer; UNetVgg16_bn5a : Layer;
  UNetVgg16_conv5b : Layer; UNetVgg16_bn5b : Layer;
  UNetVgg16_conv5c : Layer; UNetVgg16_bn5c : Layer;
  UNetVgg16_deconv1 : DeConvBlk; UNetVgg16_deconv2 : DeConvBlk;
  UNetVgg16_deconv3 : DeConvBlk; UNetVgg16_deconv4 : DeConvBlk;
  UNetVgg16_outc : outConv }.

(** [self.vgg16.features[i]] *)
Definition features_at (vgg16 : VGG) (i : nat) : M Layer :=
  lift_option (vgg_features vgg16 !! i).

(** [UNetVgg16.__init__]; [self.relu] carries no state and is the [relu]
    operation in [UNetVgg16_forward].  [n_channels] is not used by the
    source either. *)
Definition UNetVgg16_init (n_channels n_classes : Z) (fixed_vgg : bool)
  : M UNetVgg16 :=
  let maxpool := {| pool_kernel := 2; pool_stride := 2 |} in
  vgg16 ← vgg16_bn;
  conv1a ← features_at vgg16 0;
  bn1a ← features_at vgg16 1;
  conv1b ← features_at vgg16 3;
  bn1b ← features_at vgg16 4;
  conv2a ← features_at vgg16 7;
  bn2a ← features_at vgg16 8;
  conv2b ← features_at vgg16 10;
  bn2b ← features_at vgg16 11;
  conv3a ← features_at vgg16 14;
  bn3a ← features_at vgg16 15;
  conv3b ← features_at vgg16 17;
  bn3b ← features_at vgg16 18;
  conv3c ← features_at vgg16 20;
  bn3c ← features_at vgg16 21;
  conv4a ← features_at vgg16 24;
  bn4a ← features_at vgg16 25;
  conv4b ← features_at vgg16 27;
  bn4b ← features_at vgg16 28;
  conv4c ← features_at vgg16 30;
  bn4c ← features_at vgg16 31;
  conv5a ← features_at vgg16 34;
  bn5a ← features_at vgg16 35;
  conv5b ← features_at vgg16 37;
  bn5b ← features_at vgg16 38;
  conv5c ← features_at vgg16 40;
  bn5c ← features_at vgg16 41;
  deconv1 ← DeConvBlk_init 512 512 (2#10);
  deconv2 ← DeConvBlk_init 512 256 (2#10);
  deconv3 ← DeConvBlk_init 256 128 (2#10);
  deconv4 ← DeConvBlk_init 128 64 (2#10);
  outc ← outConv_init 64 n_classes;
  _ ← (if fixed_vgg
       then set_all_requires_grad false (VGG_parameters vgg16)
       else mret ());
  mret {| UNetVgg16_maxpool := maxpool; UNetVgg16_vgg16 := vgg16;
          UNetVgg16_conv1a := conv1a; UNetVgg16_bn1a := bn1a;
          UNetVgg16_conv1b := conv1b; UNetVgg16_bn1b := bn1b;
          UNetVgg16_conv2a := conv2a; UNetVgg16_bn2a := bn2a;
          UNetVgg16_conv2b := conv2b; UNetVgg16_bn2b := bn2b;
          UNetVgg16_conv3a := conv3a; UNetVgg16_bn3a := bn3a;
          UNetVgg16_conv3b := conv3b; UNetVgg16_bn3b := bn3b;
          UNetVgg16_conv3c := conv3c; UNetVgg16_bn3c := bn3c;
          UNetVgg16_conv4a := conv4a; UNetVgg16_bn4a := bn4a;
          UNetVgg16_conv4b := conv4b; UNetVgg16_bn4b := bn4b;
          UNetVgg16_conv4c := conv4c; UNetVgg16_bn4c := bn4c;
          UNetVgg16_conv5a := conv5a; UNetVgg16_bn5a := bn5a;
          UNetVgg16_conv5b := conv5b; UNetVgg16_bn5b := bn5b;
          UNetVgg16_conv5c := conv5c; UNetVgg16_bn5c := bn5c;
          UNetVgg16_deconv1 := deconv1; UNetVgg16_deconv2 := deconv2;
          UNetVgg16_deconv3 := deconv3; UNetVgg16_deconv4 := deconv4;
          UNetVgg16_outc := outc |}.

(** ** Deep Contour Aware Network (DCAN) *)

Record DCAN := {
  DCAN_maxpool : MaxPool2d;
  DCAN_conv1 : dcanConv; DCAN_conv2 : dcanConv; DCAN_conv3 : dcanConv;
  DCAN_conv4 : dcanConv; DCAN_conv5 : dcanConv; DCAN_conv6 : dcanConv;
  DCAN_deconv3s : dcanDeConv; DCAN_deconv3c : dcanDeConv;
  DCAN_deconv2s : dcanDeConv; DCAN_deconv2c : dcanDeConv;
  DCAN_deconv1s : dcanDeConv; DCAN_deconv1c : dcanDeConv }.

Definition DCAN_init (n_channels n_classes : Z) : M DCAN :=
  let maxpool := {| pool_kernel := 2; pool_stride := 2 |} in
  conv1 ← dcanConv_init n_channels 64 (2#10);
  conv2 ← dcanConv_init 64 128 (2#10);
  conv3 ← dcanConv_init 128 256 (2#10);
  conv4 ← dcanConv_init 256 512 (2#10);
  conv5 ← dcanConv_init 512 512 (2#10);
  conv6 ← dcanConv_init 512 1024 (2#10);
  deconv3s ← dcanDeConv_init 512 n_classes 8 (2#10);
  deconv3c ← dcanDeConv_init 512 n_classes 8 (2#10);
  deconv2s ← dcanDeConv_init 512 n_classes 16 (2#10);
  deconv2c ← dcanDeConv_init 512 n_classes 16 (2#10);
  deconv1s ← dcanDeConv_init 1024 n_classes 32 (2#10);
  deconv1c ← dcanDeConv_init 1024 n_classes 32 (2#10);
  mret {| DCAN_maxpool := maxpool;
          DCAN_conv1 := conv1; DCAN_conv2 := conv2; DCAN_conv3 := conv3;
          DCAN_conv4 := conv4; DCAN_conv5 := conv5; DCAN_conv6 := conv6;
          DCAN_deconv3s := deconv3s; DCAN_deconv3c := deconv3c;
          DCAN_deconv2s := deconv2s; DCAN_deconv2c := deconv2c;
          DCAN_deconv1s := deconv1s; DCAN_deconv1c := deconv1c |}.

Section BackboneForward.
Context {T : Type} `{TensorOps T}.

(** [self.relu(bn(conv(x)))] *)
Definition conv_bn_relu (conv norm : Layer) (x : T) : option T :=
  t ← Layer_forward conv x;
  t ← Layer_forward norm t;
  Some (relu t).

Definition UNetVgg16_forward (m : UNetVgg16) (x : T) : option T :=
  t ← conv_bn_relu (UNetVgg16_conv1a m) (UNetVgg16_bn1a m) x;
  x1 ← conv_bn_relu (UNetVgg16_conv1b m) (UNetVgg16_bn1b m) t;
  t ← max_pool2d (UNetVgg16_maxpool m) x1;
  t ← conv_bn_relu (UNetVgg16_conv2a m) (UNetVgg16_bn2a m) t;
  x2 ← conv_bn_relu (UNetVgg16_conv2b m) (UNetVgg16_bn2b m) t;
  t ← max_pool2d (UNetVgg16_maxpool m) x2;
  t ← conv_bn_relu (UNetVgg16_conv3a m) (UNetVgg16_bn3a m) t;
  t ← conv_bn_relu (UNetVgg16_conv3b m) (UNetVgg16_bn3b m) t;
  x3 ← conv_bn_relu (UNetVgg16_conv3c m) (UNetVgg16_bn3c m) t;
  t ← max_pool2d (UNetVgg16_maxpool m) x3;
  t ← conv_bn_relu (UNetVgg16_conv4a m) (UNetVgg16_bn4a m) t;
  t ← conv_bn_relu (UNetVgg16_conv4b m) (UNetVgg16_bn4b m) t;
  x4 ← conv_bn_relu (UNetVgg16_conv4c m) (UNetVgg16_bn4c m) t;
  t ← max_pool2d (UNetVgg16_maxpool m) x4;
  t ← conv_bn_relu (UNetVgg16_conv5a m) (UNetVgg16_bn5a m) t;
  t ← conv_bn_relu (UNetVgg16_conv5b m) (UNetVgg16_bn5b m) t;
  x5 ← conv_bn_relu (UNetVgg16_conv5c m) (UNetVgg16_bn5c m) t;
  t ← DeConvBlk_forward (UNetVgg16_deconv1 m) x5 x4;
  t ← DeConvBlk_forward (UNetVgg16_deconv2 m) t x3;
  t ← DeConvBlk_forward (UNetVgg16_deconv3 m) t x2;
  t ← DeConvBlk_forward (UNetVgg16_deconv4 m) t x1;
  t ← outConv_forward (UNetVgg16_outc m) t;
  Some (sigmoid t).

(** [a + b + c], evaluated left to right. *)
Definition add3 (a b c : T) : option T :=
  ab ← add a b; add ab c.

Definition DCAN_forward (m : DCAN) (x : T) : option (T * T) :=
  c1 ← dcanConv_forward (DCAN_conv1 m) x;
  c2 ← (p ← max_pool2d (DCAN_maxpool m) c1;
        dcanConv_forward (DCAN_conv2 m) p);
  c3 ← (p ← max_pool2d (DCAN_maxpool m) c2;
        dcanConv_forward (DCAN_conv3 m) p);
  c4 ← (p ← max_pool2d (DCAN_maxpool m) c3;
        dcanConv_forward (DCAN_conv4 m) p);
  u3s ← dcanDeConv_forward (DCAN_deconv3s m) c4;
  u3c ← dcanDeConv_forward (DCAN_deconv3c m) c4;
  c5 ← (p ← max_pool2d (DCAN_maxpool m) c4;
        dcanConv_forward (DCAN_conv5 m) p);
  u2s ← dcanDeConv_forward (DCAN_deconv2s m) c5;
  u2c ← dcanDeConv_forward (DCAN_deconv2c m) c5;
  c6 ← (p ← max_pool2d (DCAN_maxpool m) c5;
        dcanConv_forward (DCAN_conv6 m) p);
  u1s ← dcanDeConv_forward (DCAN_deconv1s m) c6;
  u1c ← dcanDeConv_forward (DCAN_deconv1c m) c6;
  outs ← sigmoid <$> add3 u1s u2s u3s;
  outc ← sigmoid <$> add3 u1c u2c u3c;
  Some (outs, outc).

End BackboneForward.

(** ** Models, the factory and the parameter count *)

Inductive Model :=
| Model_UNet (m : UNet)
| Model_DUNet (m : DUNet)
| Model_CAUNet (m : CAUNet)
| Model_CADUNet (m : CADUNet)
| Model_CAMUNet (m : CAMUNet)
| Model_CAMDUNet (m : CAMDUNet)
| Model_UNetVgg16 (m : UNetVgg16)
| Model_DCAN (m : DCAN).

(** [type(model)] *)
Inductive ModelClass :=
| cls_UNet | cls_DUNet | cls_CAUNet | cls_CADUNet | cls_CAMUNet
| cls_CAMDUNet | cls_UNetVgg16 | cls_DCAN.

#[global] Instance ModelClass_eq_dec : EqDecision ModelClass.
Proof. solve_decision. Defined.

Definition class_of (m : Model) : ModelClass :=
  match m with
  | Model_UNet _ => cls_UNet
  | Model_DUNet _ => cls_DUNet
  | Model_CAUNet _ => cls_CAUNet
  | Model_CADUNet _ => cls_CADUNet
  | Model_CAMUNet _ => cls_CAMUNet
  | Model_CAMDUNet _ => cls_CAMDUNet
  | Model_UNetVgg16 _ => cls_UNetVgg16
  | Model_DCAN _ => cls_DCAN
  end.

(** [model(x)]: the forward of the model's class, its result as the list
    of returned tensors. *)
Definition forward {T} `{TensorOps T} (m : Model) (x : T) : option (list T) :=
  match m with
  | Model_UNet m => y ← UNet_forward m x; Some [y]
  | Model_DUNet m => y ← DUNet_forward m x; Some [y]
  | Model_CAUNet m => '(xs, xc) ← CAUNet_forward m x; Some [xs; xc]
  | Model_CADUNet m => '(xs, xc) ← CADUNet_forward m x; Some [xs; xc]
  | Model_CAMUNet m =>
      '(xs, xc, xm) ← CAMUNet_forward m x; Some [xs; xc; xm]
  | Model_CAMDUNet m =>
      '(xs, xc, xm) ← CAMDUNet_forward m x; Some [xs; xc; xm]
  | Model_UNetVgg16 m => y ← UNetVgg16_forward m x; Some [y]
  | Model_DCAN m => '(outs, outc) ← DCAN_forward m x; Some [outs; outc]
  end.

Definition build_model (model_name : string) : M Model :=
  if (model_name =? "unet_vgg16")%string then
    m ← UNetVgg16_init 3 1 true; mret (Model_UNetVgg16 m)
  else if (model_name =? "dcan")%string then
    m ← DCAN_init 3 1; mret (Model_DCAN m)
  else if (model_name =? "caunet")%string then
    m ← CAUNet_init; mret (Model_CAUNet m)
  else if (model_name =? "camunet")%string then
    m ← CAMUNet_init; mret (Model_CAMUNet m)
  else if (model_name =? "dunet")%string then
    m ← DUNet_init; mret (Model_DUNet m)
  else if (model_name =? "cadunet")%string then
    m ← CAMDUNet_init; mret (Model_CAMDUNet m)
  else if (model_name =? "camdunet")%string then
    m ← CAMDUNet_init; mret (Model_CAMDUNet m)
  else
    m ← UNet_init; mret (Model_UNet m).

(** The parameters reachable from a model's attributes, in registration
    order; an attribute that names an already registered module repeats
    that module's parameters. *)
Definition UNet_parameters (m : UNet) : list nn_Parameter :=
  ConvBlock_parameters (UNet_c1 m) ++ ConvBlock_parameters (UNet_c2 m)
  ++ ConvBlock_parameters (UNet_c3 m) ++ ConvBlock_parameters (UNet_c4 m)
  ++ ConvBlock_parameters (UNet_cu m)
  ++ ConvUpBlock_parameters (UNet_u5 m) ++ ConvUpBlock_parameters (UNet_u6 m)
  ++ ConvUpBlock_parameters (UNet_u7 m) ++ ConvUpBlock_parameters (UNet_u8 m)
  ++ Conv2d_parameters (UNet_ce m).

Definition DUNet_parameters (m : DUNet) : list nn_Parameter :=
  ConvBlock_parameters (DUNet_c1 m) ++ ConvBlock_parameters (DUNet_c2 m)
  ++ ConvBlock_parameters (DUNet_c3 m) ++ ConvBlock_parameters (DUNet_c4 m)
  ++ DilatedConvBlock_parameters (DUNet_d1 m)
  ++ DilatedConvBlock_parameters (DUNet_d2 m)
  ++ DilatedConvBlock_parameters (DUNet_d3 m)
  ++ DilatedConvBlock_parameters (DUNet_d4 m)
  ++ ConvUpBlock_parameters (DUNet_u5 m)
  ++ ConvUpBlock_parameters (DUNet_u6 m)
  ++ ConvUpBlock_parameters (DUNet_u7 m)
  ++ ConvUpBlock_parameters (DUNet_u8 m)
  ++ Conv2d_parameters (DUNet_ce m).

Definition CAUNet_parameters (m : CAUNet) : list nn_Parameter :=
  ConvBlock_parameters (CAUNet_c1 m) ++ ConvBlock_parameters (CAUNet_c2 m)
  ++ ConvBlock_parameters (CAUNet_c3 m) ++ ConvBlock_parameters (CAUNet_c4 m)
  ++ ConvBlock_parameters (CAUNet_cu m)
  ++ ConvUpBlock_parameters (CAUNet_u5s m)
  ++ ConvUpBlock_parameters (CAUNet_u6s m)
  ++ ConvUpBlock_parameters (CAUNet_u7s m)
  ++ ConvUpBlock_parameters (CAUNet_u8s m)
  ++ Conv2d_parameters (CAUNet_ces m)
  ++ ConvUpBlock_parameters (CAUNet_u5c m)
  ++ ConvUpBlock_parameters (CAUNet_u6c m)
  ++ ConvUpBlock_parameters (CAUNet_u7c m)
  ++ ConvUpBlock_parameters (CAUNet_u8c m)
  ++ Conv2d_parameters (CAUNet_cec m).

Definition CADUNet_parameters (m : CADUNet) : list nn_Parameter :=
  ConvBlock_parameters (CADUNet_c1 m) ++ ConvBlock_parameters (CADUNet_c2 m)
  ++ ConvBlock_parameters (CADUNet_c3 m)
  ++ ConvBlock_parameters (CADUNet_c4 m)
  ++ DilatedConvBlock_parameters (CADUNet_d1 m)
  ++ DilatedConvBlock_parameters (CADUNet_d2 m)
  ++ DilatedConvBlock_parameters (CADUNet_d3 m)
  ++ DilatedConvBlock_parameters (CADUNet_d4 m)
  ++ ConvUpBlock_parameters (CADUNet_u5s m)
  ++ ConvUpBlock_parameters (CADUNet_u6s m)
  ++ ConvUpBlock_parameters (CADUNet_u7s m)
  ++ ConvUpBlock_parameters (CADUNet_u8s m)
  ++ Conv2d_parameters (CADUNet_ces m)
  ++ ConvUpBlock_parameters (CADUNet_u5c m)
  ++ ConvUpBlock_parameters (CADUNet_u6c m)
  ++ ConvUpBlock_parameters (CADUNet_u7c m)
  ++ ConvUpBlock_parameters (CADUNet_u8c m)
  ++ Conv2d_parameters (CADUNet_cec m).

Definition CAMUNet_parameters (m : CAMUNet) : list nn_Parameter :=
  ConvBlock_parameters (CAMUNet_c1 m) ++ ConvBlock_parameters (CAMUNet_c2 m)
  ++ ConvBlock_parameters (CAMUNet_c3 m)
  ++ ConvBlock_parameters (CAMUNet_c4 m)
  ++ ConvBlock_parameters (CAMUNet_cu m)
  ++ ConvUpBlock_parameters (CAMUNet_u5s m)
  ++ ConvUpBlock_parameters (CAMUNet_u6s m)
  ++ ConvUpBlock_parameters (CAMUNet_u7s m)
  ++ ConvUpBlock_parameters (CAMUNet_u8s m)
  ++ Conv2d_parameters (CAMUNet_ces m)
  ++ ConvUpBlock_parameters (CAMUNet_u5c m)
  ++ ConvUpBlock_parameters (CAMUNet_u6c m)
  ++ ConvUpBlock_parameters (CAMUNet_u7c m)
  ++ ConvUpBlock_parameters (CAMUNet_u8c m)
  ++ Conv2d_parameters (CAMUNet_cec m)
  ++ ConvUpBlock_parameters (CAMUNet_u5m m)
  ++ ConvUpBlock_parameters (CAMUNet_u6m m)
  ++ ConvUpBlock_parameters (CAMUNet_u7m m)
  ++ ConvUpBlock_parameters (CAMUNet_u8m m)
  ++ Conv2d_parameters (CAMUNet_cem m).

Definition CAMDUNet_parameters (m : CAMDUNet) : list nn_Parameter :=
  ConvBlock_parameters (CAMDUNet_c1 m)
  ++ ConvBlock_parameters (CAMDUNet_c2 m)
  ++ ConvBlock_parameters (CAMDUNet_c3 m)
  ++ ConvBlock_parameters (CAMDUNet_c4 m)
  ++ DilatedConvBlock_parameters (CAMDUNet_d1 m)
  ++ DilatedConvBlock_parameters (CAMDUNet_d2 m)
  ++ DilatedConvBlock_parameters (CAMDUNet_d3 m)
  ++ DilatedConvBlock_parameters (CAMDUNet_d4 m)
  ++ ConvUpBlock_parameters (CAMDUNet_u5s m)
  ++ ConvUpBlock_parameters (CAMDUNet_u6s m)
  ++ ConvUpBlock_parameters (CAMDUNet_u7s m)
  ++ ConvUpBlock_parameters (CAMDUNet_u8s m)
  ++ Conv2d_parameters (CAMDUNet_ces m)
  ++ ConvUpBlock_parameters (CAMDUNet_u5c m)
  ++ ConvUpBlock_parameters (CAMDUNet_u6c m)
  ++ ConvUpBlock_parameters (CAMDUNet_u7c m)
  ++ ConvUpBlock_parameters (CAMDUNet_u8c m)
  ++ Conv2d_parameters (CAMDUNet_cec m)
  ++ ConvUpBlock_parameters (CAMDUNet_u5m m)
  ++ ConvUpBlock_parameters (CAMDUNet_u6m m)
  ++ ConvUpBlock_parameters (CAMDUNet_u7m m)
  ++ ConvUpBlock_parameters (CAMDUNet_u8m m)
  ++ Conv2d_parameters (CAMDUNet_cem m).

(** The backbone layers re-registered as attributes of [UNetVgg16]. *)
Definition UNetVgg16_stage_layers (m : UNetVgg16) : list Layer :=
  [UNetVgg16_conv1a m; UNetVgg16_bn1a m; UNetVgg16_conv1b m;
   UNetVgg16_bn1b m;
   UNetVgg16_conv2a m; UNetVgg16_bn2a m; UNetVgg16_conv2b m;
   UNetVgg16_bn2b m;
   UNetVgg16_conv3a m; UNetVgg16_bn3a m; UNetVgg16_conv3b m;
   UNetVgg16_bn3b m; UNetVgg16_conv3c m; UNetVgg16_bn3c m;
   UNetVgg16_conv4a m; UNetVgg16_bn4a m; UNetVgg16_conv4b m;
   UNetVgg16_bn4b m; UNetVgg16_conv4c m; UNetVgg16_bn4c m;
   UNetVgg16_conv5a m; UNetVgg16_bn5a m; UNetVgg16_conv5b m;
   UNetVgg16_bn5b m; UNetVgg16_conv5c m; UNetVgg16_bn5c m].

(** The decoder of [UNetVgg16]: everything that is not the backbone. *)
Definition UNetVgg16_decoder_parameters (m : UNetVgg16)
  : list nn_Parameter :=
  DeConvBlk_parameters (UNetVgg16_deconv1 m)
  ++ DeConvBlk_parameters (UNetVgg16_deconv2 m)
  ++ DeConvBlk_parameters (UNetVgg16_deconv3 m)
  ++ DeConvBlk_parameters (UNetVgg16_deconv4 m)
  ++ outConv_parameters (UNetVgg16_outc m).

Definition UNetVgg16_parameters (m : UNetVgg16) : list nn_Parameter :=
  VGG_parameters (UNetVgg16_vgg16 m)
  ++ Sequential_parameters (UNetVgg16_stage_layers m)
  ++ UNetVgg16_decoder_parameters m.

Definition DCAN_parameters (m : DCAN) : list nn_Parameter :=
  dcanConv_parameters (DCAN_conv1 m) ++ dcanConv_parameters (DCAN_conv2 m)
  ++ dcanConv_parameters (DCAN_conv3 m) ++ dcanConv_parameters (DCAN_conv4 m)
  ++ dcanConv_parameters (DCAN_conv5 m) ++ dcanConv_parameters (DCAN_conv6 m)
  ++ dcanDeConv_parameters (DCAN_deconv3s m)
  ++ dcanDeConv_parameters (DCAN_deconv3c m)
  ++ dcanDeConv_parameters (DCAN_deconv2s m)
  ++ dcanDeConv_parameters (DCAN_deconv2c m)
  ++ dcanDeConv_parameters (DCAN_deconv1s m)
  ++ dcanDeConv_parameters (DCAN_deconv1c m).

Definition registered_parameters (m : Model) : list nn_Parameter :=
  match m with
  | Model_UNet m => UNet_parameters m
  | Model_DUNet m => DUNet_parameters m
  | Model_CAUNet m => CAUNet_parameters m
  | Model_CADUNet m => CADUNet_parameters m
  | Model_CAMUNet m => CAMUNet_parameters m
  | Model_CAMDUNet m => CAMDUNet_parameters m
  | Model_UNetVgg16 m => UNetVgg16_parameters m
  | Model_DCAN m => DCAN_parameters m
  end.

(** torch yields each parameter object once: a memo of the identities
    already seen, first occurrence kept. *)
Fixpoint yield_once (memo : gset nat) (ps : list nn_Parameter)
  : list nn_Parameter :=
  match ps with
  | [] => []
  | p :: ps =>
      if decide (pid p ∈ memo) then yield_once memo ps
      else p :: yield_once ({[pid p]} ∪ memo) ps
  end.

(** [model.parameters()] *)
Definition parameters (m : Model) : list nn_Parameter :=
  yield_once ∅ (registered_parameters m).

(** [sum(p.numel() for p in model.parameters() if p.requires_grad)]:
    the generator is consumed left to right into an accumulator that
    starts at 0. *)
Definition count_parameters (σ : Store) (model : Model) : Z :=
  foldl (λ acc p, if requires_grad σ p then acc + numel p else acc) 0
        (parameters model).

(** ** Real-valued tensors *)


(** A tensor of real numbers: its size and its element at each index. *)
Record rtensor := { rshape : Shape; rdata : Z → Z → Z → Z → R }.

(** The index read along a broadcast axis. *)
Definition broadcast_index (dim i : Z) : Z :=
  if bool_decide (dim = 1) then 0 else i.

Definition rtensor_at (t : rtensor) (n c h w : Z) : R :=
  rdata t (broadcast_index (batch (rshape t)) n)
          (broadcast_index (channels (rshape t)) c)
          (broadcast_index (height (rshape t)) h)
          (broadcast_index (width (rshape t)) w).

(** Elementwise [a + b], with torch's broadcasting. *)
Definition rtensor_add (a b : rtensor) : option rtensor :=
  s ← ShapeOps.add (rshape a) (rshape b);
  Some {| rshape := s;
          rdata n c h w := (rtensor_at a n c h w + rtensor_at b n c h w)%R |}.





(** ** Reference definitions for the properties below *)

(** The constructor call of each class; [UNetVgg16] and [DCAN] with the
    channel arguments [build_model] passes. *)
Definition instantiate (cls : ModelClass) (fixed_vgg : bool) : M Model :=
  match cls with
  | cls_UNet => m ← UNet_init; mret (Model_UNet m)
  | cls_DUNet => m ← DUNet_init; mret (Model_DUNet m)
  | cls_CAUNet => m ← CAUNet_init; mret (Model_CAUNet m)
  | cls_CADUNet => m ← CADUNet_init; mret (Model_CADUNet m)
  | cls_CAMUNet => m ← CAMUNet_init; mret (Model_CAMUNet m)
  | cls_CAMDUNet => m ← CAMDUNet_init; mret (Model_CAMDUNet m)
  | cls_UNetVgg16 =>
      m ← UNetVgg16_init 3 1 fixed_vgg; mret (Model_UNetVgg16 m)
  | cls_DCAN => m ← DCAN_init 3 1; mret (Model_DCAN m)
  end.

(** The class whose name a token spells. *)
Definition class_named (model_name : string) : option ModelClass :=
  if (model_name =? "unet")%string then Some cls_UNet
  else if (model_name =? "dunet")%string then Some cls_DUNet
  else if (model_name =? "caunet")%string then Some cls_CAUNet
  else if (model_name =? "cadunet")%string then Some cls_CADUNet
  else if (model_name =? "camunet")%string then Some cls_CAMUNet
  else if (model_name =? "camdunet")%string then Some cls_CAMDUNet
  else if (model_name =? "unet_vgg16")%string then Some cls_UNetVgg16
  else if (model_name =? "dcan")%string then Some cls_DCAN
  else None.

(** The name tokens [build_model] tests for. *)
Definition recognized : list string :=
  ["unet_vgg16"; "dcan"; "caunet"; "camunet"; "dunet"; "cadunet";
   "camdunet"].

(** Number of tensors a forward call returns. *)
Definition n_outputs (cls : ModelClass) : nat :=
  match cls with
  | cls_UNet | cls_DUNet | cls_UNetVgg16 => 1
  | cls_CAUNet | cls_CADUNet | cls_DCAN => 2
  | cls_CAMUNet | cls_CAMDUNet => 3
  end.

(** The total downsampling factor the input contract names: 16 for the
    4-level U-Net family, 32 for DCAN and UNetVgg16. *)
Definition downsampling_factor (cls : ModelClass) : Z :=
  match cls with
  | cls_DCAN | cls_UNetVgg16 => 32
  | _ => 16
  end.

(** The classes whose bottom tunnel is a [ConvBlock]: its max-pooling
    is computed (and dropped) on the 16-fold reduced tensor. *)
Definition pools_at_bottom (cls : ModelClass) : bool :=
  match cls with
  | cls_UNet | cls_CAUNet | cls_CAMUNet => true
  | _ => false
  end.

(** The smallest accepted height and width. *)
Definition min_side (cls : ModelClass) : Z :=
  if pools_at_bottom cls then 32 else downsampling_factor cls.

(** The sum of element counts of exactly those parameters that require
    gradient updates. *)
Definition trainable_numel (σ : Store) (ps : list nn_Parameter) : Z :=
  foldr Z.add 0 (numel <$> filter (λ p, requires_grad σ p = true) ps).

Section DCANReference.
Context {T : Type} `{TensorOps T}.





End DCANReference.

(** The configuration of a layer, without its parameters. *)
Inductive LayerCfg :=
| CConv2d (i o k p d : Z)
| CBatchNorm2d (c : Z)
| CReLU
| CMaxPool2d (k s : Z)
| CDropout2d (p : Q)
| CDropout (p : Q)
| CLinear (i o : Z).

Definition Conv2d_cfg (c : Conv2d) : LayerCfg :=
  CConv2d (conv_in c) (conv_out c) (conv_kernel c) (conv_padding c)
          (conv_dilation c).

Definition Layer_cfg (l : Layer) : LayerCfg :=
  match l with
  | LConv2d c => Conv2d_cfg c
  | LBatchNorm2d b => CBatchNorm2d (bn_features b)
  | LReLU => CReLU
  | LMaxPool2d p => CMaxPool2d (pool_kernel p) (pool_stride p)
  | LDropout2d p => CDropout2d p
  | LDropout p => CDropout p
  | LLinear l => CLinear (lin_in l) (lin_out l)
  end.

(** The layer configurations [make_layers] produces. *)
Fixpoint make_layers_cfg (cfg : list vgg_cfg) (in_channels : Z)
  : list LayerCfg :=
  match cfg with
  | [] => []
  | cfg_M :: cfg => CMaxPool2d 2 2 :: make_layers_cfg cfg in_channels
  | cfg_conv v :: cfg =>
      CConv2d in_channels v 3 1 1 :: CBatchNorm2d v :: CReLU
      :: make_layers_cfg cfg v
  end.

Module SizeOf.

Definition Layer (c : LayerCfg) (s : Shape) : option Shape :=
  match c with
  | CConv2d i o k p d => ShapeOps.conv2d_size i o k p d s
  | CBatchNorm2d c => ShapeOps.batch_norm_size c s
  | CMaxPool2d k stride => ShapeOps.max_pool2d_size k stride s
  | CLinear i o => ShapeOps.linear_size i o s
  | CReLU | CDropout2d _ | CDropout _ => Some s
  end.

(** [DilatedConvBlock(i, o, kernel_size=k, dilation=d)] on sizes. *)
Definition DilatedConvBlock (i o k d : Z) (s : Shape) : option Shape :=
  s ← ShapeOps.conv2d_size i o k d d s;
  ShapeOps.batch_norm_size o s.

(** [ConvBlock(i, o, dilation=d)] on sizes. *)
Definition ConvBlock (i o d : Z) (s : Shape) : option (Shape * Shape) :=
  s ← DilatedConvBlock i o 3 1 s;
  s ← DilatedConvBlock o o 3 d s;
  p ← ShapeOps.max_pool2d_size 2 2 s;
  Some (p, s).

(** [ConvUpBlock(i, o, dilation=d)] on sizes. *)
Definition ConvUpBlock (i o d : Z) (s bridge : Shape) : option Shape :=
  s ← ShapeOps.conv_transpose2d_size i o 2 2 s;
  s ← ShapeOps.cat1 s bridge;
  s ← DilatedConvBlock i o 3 1 s;
  DilatedConvBlock o o 3 d s.

End SizeOf.

(** ** Weakest preconditions of constructions *)

(** [c] run in [σ] returns, and its result and final store satisfy [Q]. *)
Definition wp {A} (c : M A) (Q : A → Store → Prop) (σ : Store) : Prop :=
  ∃ a σ', c σ = Some (a, σ') ∧ Q a σ'.

(** The parameters [ps] are allocated in [σ]. *)
Definition allocated (σ : Store) (ps : list nn_Parameter) : Prop :=
  ∀ p, p ∈ ps → (pid p < length σ)%nat.

(** The six classes of the U-Net family. *)
Definition unet_family : list ModelClass :=
  [cls_UNet; cls_DUNet; cls_CAUNet; cls_CADUNet; cls_CAMUNet; cls_CAMDUNet].

(** ** Padding, totals and creation *)

(** What [F.pad(x, (d // 2, int(d / 2), ...))] adds along an axis. *)
Definition pad_amount (d : Z) : Z := d `div` 2 + d `quot` 2.

(** [sum(p.numel() for p in ps)] *)
Definition total_numel (ps : list nn_Parameter) : Z :=
  foldr Z.add 0 (numel <$> ps).

(** Between [σ] and [σ'] exactly the parameters [ps] were created, in this
    order: each is a new object, and the flags of the parameters that
    existed are as they were. *)
Definition fresh (σ σ' : Store) (ps : list nn_Parameter) : Prop :=
  σ' = σ ++ replicate (length ps) true
  ∧ pid <$> ps = seq (length σ) (length ps).

(** * Properties *)

(** ** Construction logic *)

Lemma wp_ret {A} (a : A) Q σ : Q a σ → wp (mret a) Q σ.
Proof. intros HQ. exists a, σ. done. Qed.

Lemma wp_bind {A B} (c : M A) (f : A → M B) Q σ :
  wp c (λ a σ', wp (f a) Q σ') σ → wp (c ≫= f) Q σ.
Proof.
  intros (a & σ1 & Hc & b & σ2 & Hf & HQ).
  exists b, σ2. split; [|done].
  unfold mbind, M_bind. by rewrite Hc.
Qed.

Lemma wp_elim {A} (c : M A) Q σ a σ' :
  wp c Q σ → c σ = Some (a, σ') → Q a σ'.
Proof. intros (a' & σ'' & Hc & HQ) Hc'. congruence. Qed.

Lemma wp_lift_option {A} (o : option A) a Q σ :
  o = Some a → Q a σ → wp (lift_option o) Q σ.
Proof. intros -> HQ. by exists a, σ. Qed.

Lemma wp_new_parameter shape Q σ :
  Q {| pid := length σ; pshape := shape |} (σ ++ [true]) →
  wp (new_parameter shape) Q σ.
Proof. intros HQ. by eexists _, _. Qed.

Lemma allocated_app σ ps qs :
  allocated σ ps → allocated σ qs → allocated σ (ps ++ qs).
Proof. intros Hp Hq p [?|?]%elem_of_app; auto. Qed.

Lemma allocated_grows σ σ' ps :
  (length σ ≤ length σ')%nat → allocated σ ps → allocated σ' ps.
Proof. intros Hle Hp p Hin. specialize (Hp p Hin). lia. Qed.

Lemma allocated_nil σ : allocated σ [].
Proof. intros p Hin. by apply elem_of_nil in Hin. Qed.

(** What the [torch.nn] constructors return: the configuration asked
    for, on freshly allocated parameters; the store only grows. *)
Lemma wp_nn_Conv2d i o k p d (Q : Conv2d → Store → Prop) σ :
  (∀ c σ', Conv2d_cfg c = CConv2d i o k p d →
           (length σ ≤ length σ')%nat →
           allocated σ' (Conv2d_parameters c) → Q c σ') →
  wp (nn_Conv2d i o k p d) Q σ.
Proof.
  intros HQ. unfold nn_Conv2d.
  apply wp_bind, wp_new_parameter, wp_bind, wp_new_parameter, wp_ret.
  apply HQ; [done | rewrite !length_app; lia |].
  intros q. unfold Conv2d_parameters. cbn [conv_weight conv_bias].
  rewrite !elem_of_cons, elem_of_nil, !length_app.
  intros [->|[->|[]]]; simpl; lia.
Qed.

Lemma wp_nn_ConvTranspose2d i o k s
    (Q : ConvTranspose2d → Store → Prop) σ :
  (∀ c σ', convt_in c = i → convt_out c = o → convt_kernel c = k →
           convt_stride c = s →
           (length σ ≤ length σ')%nat →
           allocated σ' (ConvTranspose2d_parameters c) → Q c σ') →
  wp (nn_ConvTranspose2d i o k s) Q σ.
Proof.
  intros HQ. unfold nn_ConvTranspose2d.
  apply wp_bind, wp_new_parameter, wp_bind, wp_new_parameter, wp_ret.
  apply HQ; [done.. | rewrite !length_app; lia |].
  intros q. unfold ConvTranspose2d_parameters.
  cbn [convt_weight convt_bias].
  rewrite !elem_of_cons, elem_of_nil, !length_app.
  intros [->|[->|[]]]; simpl; lia.
Qed.

Lemma wp_nn_BatchNorm2d c (Q : BatchNorm2d → Store → Prop) σ :
  (∀ b σ', bn_features b = c →
           (length σ ≤ length σ')%nat →
           allocated σ' (BatchNorm2d_parameters b) → Q b σ') →
  wp (nn_BatchNorm2d c) Q σ.
Proof.
  intros HQ. unfold nn_BatchNorm2d.
  apply wp_bind, wp_new_parameter, wp_bind, wp_new_parameter, wp_ret.
  apply HQ; [done | rewrite !length_app; lia |].
  intros q. unfold BatchNorm2d_parameters. cbn [bn_weight bn_bias].
  rewrite !elem_of_cons, elem_of_nil, !length_app.
  intros [->|[->|[]]]; simpl; lia.
Qed.

Lemma wp_nn_Linear i o (Q : Linear → Store → Prop) σ :
  (∀ l σ', lin_in l = i → lin_out l = o →
           (length σ ≤ length σ')%nat →
           allocated σ' (Linear_parameters l) → Q l σ') →
  wp (nn_Linear i o) Q σ.
Proof.
  intros HQ. unfold nn_Linear.
  apply wp_bind, wp_new_parameter, wp_bind, wp_new_parameter, wp_ret.
  apply HQ; [done.. | rewrite !length_app; lia |].
  intros q. unfold Linear_parameters. cbn [lin_weight lin_bias].
  rewrite !elem_of_cons, elem_of_nil, !length_app.
  intros [->|[->|[]]]; simpl; lia.
Qed.

(** ** Sizes through the layers and blocks *)

Lemma Layer_forward_size (l : Layer) (s : Shape) :
  Layer_forward l s = SizeOf.Layer (Layer_cfg l) s.
Proof. by destruct l. Qed.

Lemma conv2d_cfg_size c i o k p d (s : Shape) :
  Conv2d_cfg c = CConv2d i o k p d →
  conv2d c s = ShapeOps.conv2d_size i o k p d s.
Proof. by intros [= <- <- <- <- <-]. Qed.

Lemma conv_out_len_3 d n : ShapeOps.conv_out_len 3 d d n = n.
Proof. unfold ShapeOps.conv_out_len. lia. Qed.

Lemma conv_out_len_1 n : ShapeOps.conv_out_len 1 0 1 n = n.
Proof. unfold ShapeOps.conv_out_len. lia. Qed.

Lemma convt_out_len_same f n : ShapeOps.convt_out_len f f n = f * n.
Proof. unfold ShapeOps.convt_out_len. lia. Qed.

Lemma pool_out_len_2 n : ShapeOps.pool_out_len 2 2 n = n `div` 2.
Proof.
  unfold ShapeOps.pool_out_len.
  replace (n - (2 - 1) - 1) with (n + (-1) * 2) by lia.
  rewrite Z.div_add by lia. lia.
Qed.

Lemma half_double n : (2 * n) `div` 2 = n.
Proof. rewrite Z.mul_comm. apply Z.div_mul. lia. Qed.

(** Discharges the guards of the size functions on a well-sized input. *)
Ltac size_guards :=
  cbn [batch channels height width];
  repeat first
    [ rewrite bool_decide_eq_true_2 by lia
    | rewrite (proj2 (Z.ltb_lt _ _)) by lia
    | rewrite (proj2 (Z.leb_le _ _)) by lia ];
  cbn [andb mbind option_bind batch channels height width].

(** A 3x3 convolution padded by its dilation keeps height and width. *)
Lemma conv2d_size_3 i o d N H W :
  0 < H → 0 < W →
  ShapeOps.conv2d_size i o 3 d d (Size N i H W) = Some (Size N o H W).
Proof.
  intros HH HW. unfold ShapeOps.conv2d_size.
  cbn [batch channels height width]. rewrite !conv_out_len_3.
  by size_guards.
Qed.

Lemma conv2d_size_1 i o N H W :
  0 < H → 0 < W →
  ShapeOps.conv2d_size i o 1 0 1 (Size N i H W) = Some (Size N o H W).
Proof.
  intros HH HW. unfold ShapeOps.conv2d_size.
  cbn [batch channels height width]. rewrite !conv_out_len_1.
  by size_guards.
Qed.

Lemma batch_norm_size_ok c N H W :
  ShapeOps.batch_norm_size c (Size N c H W) = Some (Size N c H W).
Proof. unfold ShapeOps.batch_norm_size. by size_guards. Qed.

Lemma max_pool2d_size_2 N C H W :
  2 ≤ H → 2 ≤ W →
  ShapeOps.max_pool2d_size 2 2 (Size N C H W)
  = Some (Size N C (H `div` 2) (W `div` 2)).
Proof.
  intros HH HW. unfold ShapeOps.max_pool2d_size.
  cbn [batch channels height width]. rewrite !pool_out_len_2.
  assert (0 < H `div` 2) by (apply Z.div_str_pos; lia).
  assert (0 < W `div` 2) by (apply Z.div_str_pos; lia).
  by size_guards.
Qed.

Lemma conv_transpose2d_size_same i o f N H W :
  0 < f → 0 < H → 0 < W →
  ShapeOps.conv_transpose2d_size i o f f (Size N i H W)
  = Some (Size N o (f * H) (f * W)).
Proof.
  intros Hf HH HW. unfold ShapeOps.conv_transpose2d_size.
  cbn [batch channels height width]. rewrite !convt_out_len_same.
  by size_guards.
Qed.

Lemma cat1_size N C1 C2 H W :
  ShapeOps.cat1 (Size N C1 H W) (Size N C2 H W) = Some (Size N (C1 + C2) H W).
Proof. unfold ShapeOps.cat1. by size_guards. Qed.

Lemma add_size_same (s : Shape) : ShapeOps.add s s = Some s.
Proof.
  destruct s. unfold ShapeOps.add, ShapeOps.broadcast.
  by size_guards.
Qed.

Lemma DilatedConvBlock_size i o d N H W :
  0 < H → 0 < W →
  SizeOf.DilatedConvBlock i o 3 d (Size N i H W) = Some (Size N o H W).
Proof.
  intros HH HW. unfold SizeOf.DilatedConvBlock.
  rewrite conv2d_size_3 by done. cbn [mbind option_bind].
  apply batch_norm_size_ok.
Qed.

Lemma DilatedConvBlock_size_empty i o d N C H W :
  ¬ (0 < H ∧ 0 < W) →
  SizeOf.DilatedConvBlock i o 3 d (Size N C H W) = None.
Proof.
  intros Hneg. unfold SizeOf.DilatedConvBlock, ShapeOps.conv2d_size.
  cbn [batch channels height width]. rewrite !conv_out_len_3.
  destruct (0 <? H) eqn:EH; destruct (0 <? W) eqn:EW;
    rewrite ?andb_false_r; try done.
  apply Z.ltb_lt in EH, EW. tauto.
Qed.

Lemma DilatedConvBlock_size_channels i o k d (s : Shape) :
  channels s ≠ i → SizeOf.DilatedConvBlock i o k d s = None.
Proof.
  intros Hc. unfold SizeOf.DilatedConvBlock, ShapeOps.conv2d_size.
  by rewrite bool_decide_eq_false_2.
Qed.

Lemma ConvBlock_size i o d N H W :
  2 ≤ H → 2 ≤ W →
  SizeOf.ConvBlock i o d (Size N i H W)
  = Some (Size N o (H `div` 2) (W `div` 2), Size N o H W).
Proof.
  intros HH HW. unfold SizeOf.ConvBlock.
  rewrite DilatedConvBlock_size by lia. cbn [mbind option_bind].
  rewrite DilatedConvBlock_size by lia. cbn [mbind option_bind].
  rewrite max_pool2d_size_2 by lia. done.
Qed.

Lemma ConvBlock_size_even i o d N h w :
  0 < h → 0 < w →
  SizeOf.ConvBlock i o d (Size N i (2 * h) (2 * w))
  = Some (Size N o h w, Size N o (2 * h) (2 * w)).
Proof.
  intros Hh Hw. rewrite ConvBlock_size by lia. by rewrite !half_double.
Qed.

(** On a 1x1 tensor the pooling of a [ConvBlock] has no output. *)
Lemma ConvBlock_size_1 i o d N H W :
  H = 1 ∨ W = 1 → SizeOf.ConvBlock i o d (Size N i H W) = None.
Proof.
  intros HW. unfold SizeOf.ConvBlock.
  destruct (decide (0 < H ∧ 0 < W)) as [[HH HW']|Hneg].
  - rewrite !DilatedConvBlock_size by done. cbn [mbind option_bind].
    rewrite DilatedConvBlock_size by done. cbn [mbind option_bind].
    unfold ShapeOps.max_pool2d_size. cbn [batch channels height width].
    rewrite !pool_out_len_2.
    destruct HW as [-> | ->]; change (1 `div` 2) with 0;
      rewrite ?andb_false_r; done.
  - by rewrite DilatedConvBlock_size_empty.
Qed.

Lemma ConvUpBlock_size i o d N h w :
  i = 2 * o → 0 < h → 0 < w →
  SizeOf.ConvUpBlock i o d (Size N i h w) (Size N o (2 * h) (2 * w))
  = Some (Size N o (2 * h) (2 * w)).
Proof.
  intros Hi Hh Hw. unfold SizeOf.ConvUpBlock.
  rewrite conv_transpose2d_size_same by lia. cbn [mbind option_bind].
  rewrite cat1_size. cbn [mbind option_bind].
  replace (o + o) with i by lia.
  rewrite DilatedConvBlock_size by lia. cbn [mbind option_bind].
  apply DilatedConvBlock_size; lia.
Qed.

(** ** What the block constructors return *)

Lemma wp_DilatedConvBlock_init i o k p a d
    (Q : DilatedConvBlock → Store → Prop) σ :
  (∀ m σ',
     (∀ s : Shape,
        DilatedConvBlock_forward m s = SizeOf.DilatedConvBlock i o k d s) →
     (length σ ≤ length σ')%nat → Q m σ') →
  wp (DilatedConvBlock_init i o k p a d) Q σ.
Proof.
  intros HQ. unfold DilatedConvBlock_init.
  apply wp_bind, wp_nn_Conv2d. intros c σ1 Hc Hl1 _.
  apply wp_bind, wp_nn_BatchNorm2d. intros b σ2 Hb Hl2 _.
  apply wp_ret, HQ; [|lia].
  intros s. unfold DilatedConvBlock_forward, SizeOf.DilatedConvBlock.
  cbn [dcb_conv dcb_norm dcb_activation dcb_drop].
  rewrite (conv2d_cfg_size _ _ _ _ _ _ _ Hc).
  destruct (ShapeOps.conv2d_size i o k d d s) as [s1|];
    cbn [mbind option_bind]; [|done].
  destruct a. cbn [apply_activation relu batch_norm Shape_ops].
  unfold ShapeOps.batch_norm. rewrite Hb.
  destruct (ShapeOps.batch_norm_size o s1) as [s2|];
    cbn [mbind option_bind]; [|done].
  by destruct (p ?= 0)%Q.
Qed.

Lemma wp_ConvBlock_init i o p d (Q : ConvBlock → Store → Prop) σ :
  (∀ m σ',
     (∀ s : Shape, ConvBlock_forward m s = SizeOf.ConvBlock i o d s) →
     (length σ ≤ length σ')%nat → Q m σ') →
  wp (ConvBlock_init i o p d) Q σ.
Proof.
  intros HQ. unfold ConvBlock_init.
  apply wp_bind, wp_DilatedConvBlock_init. intros b1 σ1 H1 Hl1.
  apply wp_bind, wp_DilatedConvBlock_init. intros b2 σ2 H2 Hl2.
  apply wp_ret, HQ; [|lia].
  intros s. unfold ConvBlock_forward, SizeOf.ConvBlock.
  cbn [cb_block1 cb_block2 cb_pool]. rewrite H1.
  destruct (SizeOf.DilatedConvBlock i o 3 1 s) as [s1|];
    cbn [mbind option_bind]; [|done].
  rewrite H2. done.
Qed.

Lemma wp_ConvUpBlock_init i o p d (Q : ConvUpBlock → Store → Prop) σ :
  (∀ m σ',
     (∀ s bridge : Shape,
        ConvUpBlock_forward m s bridge = SizeOf.ConvUpBlock i o d s bridge) →
     (∀ s : Shape,
        conv_transpose2d (cub_up m) s
        = ShapeOps.conv_transpose2d_size i o 2 2 s) →
     (length σ ≤ length σ')%nat → Q m σ') →
  wp (ConvUpBlock_init i o p d) Q σ.
Proof.
  intros HQ. unfold ConvUpBlock_init.
  apply wp_bind, wp_nn_ConvTranspose2d. intros u σ0 Hi Ho Hk Hs Hl0 _.
  apply wp_bind, wp_DilatedConvBlock_init. intros b1 σ1 H1 Hl1.
  apply wp_bind, wp_DilatedConvBlock_init. intros b2 σ2 H2 Hl2.
  apply wp_ret, HQ; [| |lia].
  2:{ intros s. cbn [cub_up conv_transpose2d Shape_ops].
      unfold ShapeOps.conv_transpose2d. by rewrite Hi, Ho, Hk, Hs. }
  intros s bridge. unfold ConvUpBlock_forward, SizeOf.ConvUpBlock.
  cbn [cub_up cub_block1 cub_block2 conv_transpose2d Shape_ops].
  unfold ShapeOps.conv_transpose2d. rewrite Hi, Ho, Hk, Hs.
  destruct (ShapeOps.conv_transpose2d_size i o 2 2 s) as [s1|];
    cbn [mbind option_bind]; [|done].
  cbn [cat1 Shape_ops].
  destruct (ShapeOps.cat1 s1 bridge) as [s2|];
    cbn [mbind option_bind]; [|done].
  rewrite H1.
  destruct (SizeOf.DilatedConvBlock i o 3 1 s2) as [s3|];
    cbn [mbind option_bind]; [|done].
  apply H2.
Qed.

(** ** Sizes through the U-Net family *)

(** Runs the constructors of a model, keeping what each block does on
    sizes. *)
Ltac wp_blocks :=
  repeat lazymatch goal with
    | |- wp (mret _) _ _ => apply wp_ret
    | |- wp (mbind _ (ConvBlock_init _ _ _ _)) _ _ =>
        apply wp_bind, wp_ConvBlock_init; intros
    | |- wp (mbind _ (ConvUpBlock_init _ _ _ _)) _ _ =>
        apply wp_bind, wp_ConvUpBlock_init; intros
    | |- wp (mbind _ (DilatedConvBlock_init _ _ _ _ _ _)) _ _ =>
        apply wp_bind, wp_DilatedConvBlock_init; intros
    | |- wp (mbind _ (nn_Conv2d _ _ _ _ _)) _ _ =>
        apply wp_bind, wp_nn_Conv2d; intros
    end.

(** One step of a forward pass on a well-sized input. *)
Ltac size_step :=
  first
    [ rewrite ConvBlock_size_even by lia
    | rewrite ConvBlock_size by lia
    | rewrite ConvUpBlock_size by lia
    | rewrite DilatedConvBlock_size by lia
    | rewrite conv2d_size_1 by lia
    | match goal with
      | H : ∀ s : Shape, ConvBlock_forward ?m s = _
        |- context [ConvBlock_forward ?m _] => rewrite H
      | H : ∀ s : Shape, DilatedConvBlock_forward ?m s = _
        |- context [DilatedConvBlock_forward ?m _] => rewrite H
      | H : ∀ s b : Shape, ConvUpBlock_forward ?m s b = _
        |- context [ConvUpBlock_forward ?m _ _] => rewrite H
      | H : Conv2d_cfg ?c = _ |- context [conv2d ?c _] =>
          rewrite (conv2d_cfg_size _ _ _ _ _ _ _ H)
      end
    | progress cbn [mbind option_bind sigmoid Shape_ops] ].

Lemma wp_UNet_init (Q : UNet → Store → Prop) σ :
  (∀ m σ',
     (∀ N h w, 2 ≤ h → 2 ≤ w →
        UNet_forward m (Size N 3 (16 * h) (16 * w))
        = Some (Size N 1 (16 * h) (16 * w))) →
     Q m σ') →
  wp UNet_init Q σ.
Proof.
  intros HQ. unfold UNet_init. wp_blocks. apply HQ.
  intros N h w Hh Hw.
  replace (16 * h) with (2 * (2 * (2 * (2 * h)))) by lia.
  replace (16 * w) with (2 * (2 * (2 * (2 * w)))) by lia.
  unfold UNet_forward.
  cbn [UNet_c1 UNet_c2 UNet_c3 UNet_c4 UNet_cu UNet_u5 UNet_u6 UNet_u7
       UNet_u8 UNet_ce].
  repeat size_step. done.
Qed.

Lemma wp_DUNet_init (Q : DUNet → Store → Prop) σ :
  (∀ m σ',
     (∀ N h w, 0 < h → 0 < w →
        DUNet_forward m (Size N 3 (16 * h) (16 * w))
        = Some (Size N 1 (16 * h) (16 * w))) →
     Q m σ') →
  wp DUNet_init Q σ.
Proof.
  intros HQ. unfold DUNet_init. wp_blocks. apply HQ.
  intros N h w Hh Hw.
  replace (16 * h) with (2 * (2 * (2 * (2 * h)))) by lia.
  replace (16 * w) with (2 * (2 * (2 * (2 * w)))) by lia.
  unfold DUNet_forward.
  cbn [DUNet_c1 DUNet_c2 DUNet_c3 DUNet_c4 DUNet_d1 DUNet_d2 DUNet_d3
       DUNet_d4 DUNet_u5 DUNet_u6 DUNet_u7 DUNet_u8 DUNet_ce].
  repeat size_step. done.
Qed.

(** Splits a successful forward pass into its successful steps. *)
Ltac inv_forward H :=
  repeat
    (let t := fresh "t" in
     let E := fresh "E" in
     apply bind_Some in H as (t & E & H);
     lazymatch type of t with
     | prod _ _ => destruct t as [? ?]
     | _ => idtac
     end);
  repeat match goal with
    | H : ∀ s : Shape, ConvBlock_forward ?m s = _,
      E : ConvBlock_forward ?m _ = _ |- _ => rewrite H in E
    | H : ∀ s : Shape, DilatedConvBlock_forward ?m s = _,
      E : DilatedConvBlock_forward ?m _ = _ |- _ => rewrite H in E
    | H : ∀ s b : Shape, ConvUpBlock_forward ?m s b = _,
      E : ConvUpBlock_forward ?m _ _ = _ |- _ => rewrite H in E
    | H : Conv2d_cfg ?c = _, E : conv2d ?c _ = _ |- _ =>
        rewrite (conv2d_cfg_size _ _ _ _ _ _ _ H) in E
    end.

Lemma wp_CAUNet_init (Q : CAUNet → Store → Prop) σ :
  (∀ m σ',
     (∀ N h w, 2 ≤ h → 2 ≤ w →
        CAUNet_forward m (Size N 3 (16 * h) (16 * w))
        = Some (Size N 1 (16 * h) (16 * w), Size N 1 (16 * h) (16 * w))) →
     (∀ (x xs xc : Shape), CAUNet_forward m x = Some (xs, xc) → xs = xc) →
     Q m σ') →
  wp CAUNet_init Q σ.
Proof.
  intros HQ. unfold CAUNet_init. wp_blocks. apply HQ.
  - intros N h w Hh Hw.
    replace (16 * h) with (2 * (2 * (2 * (2 * h)))) by lia.
    replace (16 * w) with (2 * (2 * (2 * (2 * w)))) by lia.
    unfold CAUNet_forward.
    cbn [CAUNet_c1 CAUNet_c2 CAUNet_c3 CAUNet_c4 CAUNet_cu
         CAUNet_u5s CAUNet_u6s CAUNet_u7s CAUNet_u8s CAUNet_ces
         CAUNet_u5c CAUNet_u6c CAUNet_u7c CAUNet_u8c CAUNet_cec].
    repeat size_step. done.
  - intros x xs xc Hf. unfold CAUNet_forward in Hf.
    cbn [CAUNet_c1 CAUNet_c2 CAUNet_c3 CAUNet_c4 CAUNet_cu
         CAUNet_u5s CAUNet_u6s CAUNet_u7s CAUNet_u8s CAUNet_ces
         CAUNet_u5c CAUNet_u6c CAUNet_u7c CAUNet_u8c CAUNet_cec] in Hf.
    inv_forward Hf. cbn [sigmoid Shape_ops] in Hf. congruence.
Qed.

Lemma wp_CADUNet_init (Q : CADUNet → Store → Prop) σ :
  (∀ m σ',
     (∀ N h w, 0 < h → 0 < w →
        CADUNet_forward m (Size N 3 (16 * h) (16 * w))
        = Some (Size N 1 (16 * h) (16 * w), Size N 1 (16 * h) (16 * w))) →
     (∀ (x xs xc : Shape), CADUNet_forward m x = Some (xs, xc) → xs = xc) →
     Q m σ') →
  wp CADUNet_init Q σ.
Proof.
  intros HQ. unfold CADUNet_init. wp_blocks. apply HQ.
  - intros N h w Hh Hw.
    replace (16 * h) with (2 * (2 * (2 * (2 * h)))) by lia.
    replace (16 * w) with (2 * (2 * (2 * (2 * w)))) by lia.
    unfold CADUNet_forward.
    cbn [CADUNet_c1 CADUNet_c2 CADUNet_c3 CADUNet_c4
         CADUNet_d1 CADUNet_d2 CADUNet_d3 CADUNet_d4
         CADUNet_u5s CADUNet_u6s CADUNet_u7s CADUNet_u8s CADUNet_ces
         CADUNet_u5c CADUNet_u6c CADUNet_u7c CADUNet_u8c CADUNet_cec].
    repeat size_step. done.
  - intros x xs xc Hf. unfold CADUNet_forward in Hf.
    cbn [CADUNet_c1 CADUNet_c2 CADUNet_c3 CADUNet_c4
         CADUNet_d1 CADUNet_d2 CADUNet_d3 CADUNet_d4
         CADUNet_u5s CADUNet_u6s CADUNet_u7s CADUNet_u8s CADUNet_ces
         CADUNet_u5c CADUNet_u6c CADUNet_u7c CADUNet_u8c CADUNet_cec] in Hf.
    inv_forward Hf. cbn [sigmoid Shape_ops] in Hf. congruence.
Qed.

Lemma wp_CAMUNet_init (Q : CAMUNet → Store → Prop) σ :
  (∀ m σ',
     (∀ N h w, 2 ≤ h → 2 ≤ w →
        CAMUNet_forward m (Size N 3 (16 * h) (16 * w))
        = Some (Size N 1 (16 * h) (16 * w), Size N 1 (16 * h) (16 * w),
                Size N 1 (16 * h) (16 * w))) →
     (∀ (x xs xc xm : Shape),
        CAMUNet_forward m x = Some (xs, xc, xm) → xs = xc ∧ xc = xm) →
     Q m σ') →
  wp CAMUNet_init Q σ.
Proof.
  intros HQ. unfold CAMUNet_init. wp_blocks. apply HQ.
  - intros N h w Hh Hw.
    replace (16 * h) with (2 * (2 * (2 * (2 * h)))) by lia.
    replace (16 * w) with (2 * (2 * (2 * (2 * w)))) by lia.
    unfold CAMUNet_forward.
    cbn [CAMUNet_c1 CAMUNet_c2 CAMUNet_c3 CAMUNet_c4 CAMUNet_cu
         CAMUNet_u5s CAMUNet_u6s CAMUNet_u7s CAMUNet_u8s CAMUNet_ces
         CAMUNet_u5c CAMUNet_u6c CAMUNet_u7c CAMUNet_u8c CAMUNet_cec
         CAMUNet_u5m CAMUNet_u6m CAMUNet_u7m CAMUNet_u8m CAMUNet_cem].
    repeat size_step. done.
  - intros x xs xc xm Hf. unfold CAMUNet_forward in Hf.
    cbn [CAMUNet_c1 CAMUNet_c2 CAMUNet_c3 CAMUNet_c4 CAMUNet_cu
         CAMUNet_u5s CAMUNet_u6s CAMUNet_u7s CAMUNet_u8s CAMUNet_ces
         CAMUNet_u5c CAMUNet_u6c CAMUNet_u7c CAMUNet_u8c CAMUNet_cec
         CAMUNet_u5m CAMUNet_u6m CAMUNet_u7m CAMUNet_u8m CAMUNet_cem]
      in Hf.
    inv_forward Hf. cbn [sigmoid Shape_ops] in Hf. split; congruence.
Qed.

Lemma wp_CAMDUNet_init (Q : CAMDUNet → Store → Prop) σ :
  (∀ m σ',
     (∀ N h w, 0 < h → 0 < w →
        CAMDUNet_forward m (Size N 3 (16 * h) (16 * w))
        = Some (Size N 1 (16 * h) (16 * w), Size N 1 (16 * h) (16 * w),
                Size N 1 (16 * h) (16 * w))) →
     (∀ (x xs xc xm : Shape),
        CAMDUNet_forward m x = Some (xs, xc, xm) → xs = xc ∧ xc = xm) →
     Q m σ') →
  wp CAMDUNet_init Q σ.
Proof.
  intros HQ. unfold CAMDUNet_init. wp_blocks. apply HQ.
  - intros N h w Hh Hw.
    replace (16 * h) with (2 * (2 * (2 * (2 * h)))) by lia.
    replace (16 * w) with (2 * (2 * (2 * (2 * w)))) by lia.
    unfold CAMDUNet_forward.
    cbn [CAMDUNet_c1 CAMDUNet_c2 CAMDUNet_c3 CAMDUNet_c4
         CAMDUNet_d1 CAMDUNet_d2 CAMDUNet_d3 CAMDUNet_d4
         CAMDUNet_u5s CAMDUNet_u6s CAMDUNet_u7s CAMDUNet_u8s CAMDUNet_ces
         CAMDUNet_u5c CAMDUNet_u6c CAMDUNet_u7c CAMDUNet_u8c CAMDUNet_cec
         CAMDUNet_u5m CAMDUNet_u6m CAMDUNet_u7m CAMDUNet_u8m CAMDUNet_cem].
    repeat size_step. done.
  - intros x xs xc xm Hf. unfold CAMDUNet_forward in Hf.
    cbn [CAMDUNet_c1 CAMDUNet_c2 CAMDUNet_c3 CAMDUNet_c4
         CAMDUNet_d1 CAMDUNet_d2 CAMDUNet_d3 CAMDUNet_d4
         CAMDUNet_u5s CAMDUNet_u6s CAMDUNet_u7s CAMDUNet_u8s CAMDUNet_ces
         CAMDUNet_u5c CAMDUNet_u6c CAMDUNet_u7c CAMDUNet_u8c CAMDUNet_cec
         CAMDUNet_u5m CAMDUNet_u6m CAMDUNet_u7m CAMDUNet_u8m CAMDUNet_cem]
      in Hf.
    inv_forward Hf. cbn [sigmoid Shape_ops] in Hf. split; congruence.
Qed.

(** ** Sizes through DCAN *)

Lemma max_pool2d_size_even N C h w :
  0 < h → 0 < w →
  ShapeOps.max_pool2d_size 2 2 (Size N C (2 * h) (2 * w))
  = Some (Size N C h w).
Proof.
  intros Hh Hw. rewrite max_pool2d_size_2 by lia. by rewrite !half_double.
Qed.

Lemma add_size_eq (a b : Shape) : a = b → ShapeOps.add a b = Some a.
Proof. intros <-. apply add_size_same. Qed.

Lemma Size_eq N C H W H' W' :
  H = H' → W = W' → Size N C H W = Size N C H' W'.
Proof. by intros <- <-. Qed.

Lemma wp_dcanConv_init i o p (Q : dcanConv → Store → Prop) σ :
  (∀ m σ',
     (∀ N H W, 0 < H → 0 < W →
        dcanConv_forward m (Size N i H W) = Some (Size N o H W)) →
     (length σ ≤ length σ')%nat → Q m σ') →
  wp (dcanConv_init i o p) Q σ.
Proof.
  intros HQ. unfold dcanConv_init.
  apply wp_bind, wp_nn_Conv2d. intros c σ1 Hc Hl1 _.
  apply wp_bind, wp_nn_BatchNorm2d. intros b σ2 Hb Hl2 _.
  apply wp_ret, HQ; [|lia].
  intros N H W HH HW. unfold dcanConv_forward.
  cbn [dc_conv Sequential_forward Layer_forward].
  rewrite (conv2d_cfg_size _ _ _ _ _ _ _ Hc), conv2d_size_3 by done.
  cbn [mbind option_bind relu dropout2d batch_norm Shape_ops].
  unfold ShapeOps.batch_norm. rewrite Hb, batch_norm_size_ok. done.
Qed.

Lemma wp_dcanDeConv_init i o f p (Q : dcanDeConv → Store → Prop) σ :
  (∀ m σ',
     (∀ N H W, 0 < f → 0 < H → 0 < W →
        dcanDeConv_forward m (Size N i H W)
        = Some (Size N o (f * H) (f * W))) →
     (length σ ≤ length σ')%nat → Q m σ') →
  wp (dcanDeConv_init i o f p) Q σ.
Proof.
  intros HQ. unfold dcanDeConv_init.
  apply wp_bind, wp_nn_ConvTranspose2d. intros u σ0 Hi Ho Hk Hs Hl0 _.
  apply wp_bind, wp_dcanConv_init. intros c σ1 Hc Hl1.
  apply wp_ret, HQ; [|lia].
  intros N H W Hf HH HW. unfold dcanDeConv_forward.
  cbn [dd_upscaling dd_conv conv_transpose2d Shape_ops].
  unfold ShapeOps.conv_transpose2d. rewrite Hi, Ho, Hk, Hs.
  rewrite conv_transpose2d_size_same by done. cbn [mbind option_bind].
  apply Hc; lia.
Qed.

Lemma wp_DCAN_init (Q : DCAN → Store → Prop) σ :
  (∀ m σ',
     (∀ N h w, 0 < h → 0 < w →
        DCAN_forward m (Size N 3 (32 * h) (32 * w))
        = Some (Size N 1 (32 * h) (32 * w), Size N 1 (32 * h) (32 * w))) →
     Q m σ') →
  wp (DCAN_init 3 1) Q σ.
Proof.
  intros HQ. unfold DCAN_init.
  repeat lazymatch goal with
    | |- wp (mret _) _ _ => apply wp_ret
    | |- wp (mbind _ (dcanConv_init _ _ _)) _ _ =>
        apply wp_bind, wp_dcanConv_init; intros
    | |- wp (mbind _ (dcanDeConv_init _ _ _ _)) _ _ =>
        apply wp_bind, wp_dcanDeConv_init; intros
    end.
  apply HQ. intros N h w Hh Hw.
  unfold DCAN_forward, add3.
  cbn [DCAN_maxpool DCAN_conv1 DCAN_conv2 DCAN_conv3 DCAN_conv4 DCAN_conv5
       DCAN_conv6 DCAN_deconv3s DCAN_deconv3c DCAN_deconv2s DCAN_deconv2c
       DCAN_deconv1s DCAN_deconv1c max_pool2d Shape_ops].
  unfold ShapeOps.max_pool2d. cbn [pool_kernel pool_stride].
  replace (32 * h) with (2 * (2 * (2 * (2 * (2 * h))))) by lia.
  replace (32 * w) with (2 * (2 * (2 * (2 * (2 * w))))) by lia.
  repeat first
    [ rewrite max_pool2d_size_even by lia
    | match goal with
      | H : ∀ N H W, _ → _ → dcanConv_forward ?m _ = _
        |- context [dcanConv_forward ?m _] => rewrite H by lia
      | H : ∀ N H W, _ → _ → _ → dcanDeConv_forward ?m _ = _
        |- context [dcanDeConv_forward ?m _] => rewrite H by lia
      end
    | rewrite add_size_eq by (apply Size_eq; lia)
    | progress cbn [mbind option_bind fmap option_fmap option_map sigmoid
                    add Shape_ops] ].
  f_equal. f_equal; apply Size_eq; lia.
Qed.

(** ** The backbone: layout and allocation *)

Lemma wp_make_layers cfg in_channels (Q : list Layer → Store → Prop) σ :
  (∀ ls σ',
     Layer_cfg <$> ls = make_layers_cfg cfg in_channels →
     (length σ ≤ length σ')%nat →
     allocated σ' (Sequential_parameters ls) → Q ls σ') →
  wp (make_layers cfg in_channels) Q σ.
Proof.
  revert in_channels Q σ.
  induction cfg as [|[v|] cfg IH]; intros in_channels Q σ HQ;
    cbn [make_layers].
  - apply wp_ret, HQ; [done | lia | apply allocated_nil].
  - apply wp_bind, wp_nn_Conv2d. intros c σ1 Hc Hl1 Ha1.
    apply wp_bind, wp_nn_BatchNorm2d. intros b σ2 Hb Hl2 Ha2.
    apply wp_bind, IH. intros rest σ3 Hrest Hl3 Ha3.
    apply wp_ret, HQ; [|lia|].
    + cbn [fmap list_fmap Layer_cfg make_layers_cfg].
      fold (fmap (M:=list) Layer_cfg rest). by rewrite Hc, Hb, Hrest.
    + unfold Sequential_parameters. cbn [map concat Layer_parameters].
      apply allocated_app; [|apply allocated_app]; [| |done].
      * eapply allocated_grows; [|exact Ha1]. lia.
      * eapply allocated_grows; [|exact Ha2]. lia.
  - apply wp_bind, IH. intros rest σ1 Hrest Hl1 Ha1.
    apply wp_ret, HQ; [|lia|done].
    cbn [fmap list_fmap Layer_cfg make_layers_cfg pool_kernel pool_stride].
    fold (fmap (M:=list) Layer_cfg rest). by rewrite Hrest.
Qed.

Lemma wp_vgg16_bn (Q : VGG → Store → Prop) σ :
  (∀ v σ',
     Layer_cfg <$> vgg_features v = make_layers_cfg cfg_D 3 →
     (length σ ≤ length σ')%nat →
     allocated σ' (VGG_parameters v) → Q v σ') →
  wp vgg16_bn Q σ.
Proof.
  intros HQ. unfold vgg16_bn.
  apply wp_bind, wp_make_layers. intros fs σ1 Hfs Hl1 Ha1.
  apply wp_bind, wp_nn_Linear. intros fc1 σ2 _ _ Hl2 Ha2.
  apply wp_bind, wp_nn_Linear. intros fc2 σ3 _ _ Hl3 Ha3.
  apply wp_bind, wp_nn_Linear. intros fc3 σ4 _ _ Hl4 Ha4.
  apply wp_ret, HQ; [done | lia |].
  unfold VGG_parameters, Sequential_parameters.
  cbn [vgg_features vgg_classifier map concat Layer_parameters app].
  apply allocated_app; [eapply allocated_grows; [|exact Ha1]; lia|].
  change (allocated σ4 (Linear_parameters fc1 ++ Linear_parameters fc2
                        ++ Linear_parameters fc3 ++ [])).
  repeat apply allocated_app; try apply allocated_nil; try done.
  - eapply allocated_grows; [|exact Ha2]. lia.
  - eapply allocated_grows; [|exact Ha3]. lia.
Qed.

Lemma wp_features_at v i c (Q : Layer → Store → Prop) σ :
  (Layer_cfg <$> vgg_features v) !! i = Some c →
  (∀ l, Layer_cfg l = c → l ∈ vgg_features v → Q l σ) →
  wp (features_at v i) Q σ.
Proof.
  rewrite list_lookup_fmap. intros Hc HQ.
  destruct (vgg_features v !! i) as [l|] eqn:Hl; [|done].
  injection Hc as Hc. eapply wp_lift_option; [done|].
  apply HQ; [done|]. by eapply list_elem_of_lookup_2.
Qed.

(** ** Freezing *)

Lemma requires_grad_set_eq b p q σ :
  pid p = pid q → (pid p < length σ)%nat →
  requires_grad (set_requires_grad b p σ) q = b.
Proof.
  intros Hpq Hlt. unfold requires_grad, set_requires_grad.
  rewrite <- Hpq. by rewrite list_lookup_insert_eq.
Qed.

Lemma requires_grad_set_ne b p q σ :
  pid p ≠ pid q →
  requires_grad (set_requires_grad b p σ) q = requires_grad σ q.
Proof.
  intros Hpq. unfold requires_grad, set_requires_grad.
  by rewrite list_lookup_insert_ne.
Qed.

Lemma requires_grad_set_all_keep b ps q σ :
  (pid q < length σ)%nat →
  requires_grad σ q = b →
  requires_grad (foldl (λ σ p, set_requires_grad b p σ) σ ps) q = b.
Proof.
  revert σ. induction ps as [|p ps IH]; intros σ Hlt Hq; [done|].
  cbn [foldl]. apply IH.
  - unfold set_requires_grad. by rewrite length_insert.
  - destruct (decide (pid p = pid q)) as [Heq|Hne].
    + apply requires_grad_set_eq; [done | by rewrite Heq].
    + by rewrite requires_grad_set_ne.
Qed.

(** After the loop every parameter it ran over carries the flag. *)
Lemma requires_grad_set_all b ps q σ :
  allocated σ ps → q ∈ ps →
  requires_grad (foldl (λ σ p, set_requires_grad b p σ) σ ps) q = b.
Proof.
  revert σ. induction ps as [|p ps IH]; intros σ Ha Hq.
  - by apply elem_of_nil in Hq.
  - cbn [foldl]. apply elem_of_cons in Hq as [->|Hq].
    + assert (pid p < length σ)%nat by (apply Ha; left).
      apply requires_grad_set_all_keep.
      * unfold set_requires_grad. by rewrite length_insert.
      * by apply requires_grad_set_eq.
    + apply IH; [|done]. intros r Hr. unfold set_requires_grad.
      rewrite length_insert. apply Ha. by right.
Qed.

Lemma wp_set_all_requires_grad b ps (Q : unit → Store → Prop) σ :
  Q () (foldl (λ σ p, set_requires_grad b p σ) σ ps) →
  wp (set_all_requires_grad b ps) Q σ.
Proof. intros HQ. by eexists _, _. Qed.

(** ** Sizes through [UNetVgg16] *)

Lemma conv_bn_relu_size conv norm i o N H W :
  Layer_cfg conv = CConv2d i o 3 1 1 →
  Layer_cfg norm = CBatchNorm2d o →
  0 < H → 0 < W →
  conv_bn_relu conv norm (Size N i H W) = Some (Size N o H W).
Proof.
  intros Hc Hn HH HW. unfold conv_bn_relu.
  rewrite !Layer_forward_size, Hc. cbn [SizeOf.Layer].
  rewrite conv2d_size_3 by done. cbn [mbind option_bind].
  rewrite Layer_forward_size, Hn. cbn [SizeOf.Layer].
  by rewrite batch_norm_size_ok.
Qed.

Lemma pad_size_0 N C H W :
  0 ≤ H → 0 ≤ W → ShapeOps.pad 0 0 0 0 (Size N C H W) = Some (Size N C H W).
Proof.
  intros HH HW. unfold ShapeOps.pad. size_guards.
  f_equal. apply Size_eq; lia.
Qed.

Lemma wp_DeConvBlk_init in_ch out_ch p (Q : DeConvBlk → Store → Prop) σ :
  (∀ m σ',
     (∀ N H W, 0 < H → 0 < W →
        DeConvBlk_forward m (Size N in_ch H W)
                          (Size N out_ch (2 * H) (2 * W))
        = Some (Size N out_ch (2 * H) (2 * W))) →
     (length σ ≤ length σ')%nat → Q m σ') →
  wp (DeConvBlk_init in_ch out_ch p) Q σ.
Proof.
  intros HQ. unfold DeConvBlk_init.
  apply wp_bind, wp_nn_ConvTranspose2d. intros u σ0 Hi Ho Hk Hs Hl0 _.
  apply wp_bind, wp_nn_Conv2d. intros ca σ1 Hca Hl1 _.
  apply wp_bind, wp_nn_BatchNorm2d. intros na σ2 Hna Hl2 _.
  apply wp_bind, wp_nn_Conv2d. intros cb σ3 Hcb Hl3 _.
  apply wp_bind, wp_nn_BatchNorm2d. intros nb σ4 Hnb Hl4 _.
  apply wp_ret, HQ; [|lia].
  intros N H W HH HW. unfold DeConvBlk_forward.
  cbn [dcv_upscaling dcv_convs conv_transpose2d Shape_ops].
  unfold ShapeOps.conv_transpose2d. rewrite Hi, Ho, Hk, Hs.
  rewrite conv_transpose2d_size_same by lia.
  cbn [mbind option_bind size Shape_ops height width pad].
  replace (2 * H - 2 * H) with 0 by lia.
  replace (2 * W - 2 * W) with 0 by lia.
  change (0 `div` 2) with 0. change (0 `quot` 2) with 0.
  rewrite pad_size_0 by lia. cbn [mbind option_bind cat1 Shape_ops].
  rewrite cat1_size. cbn [mbind option_bind].
  cbn [Sequential_forward Layer_forward].
  rewrite (conv2d_cfg_size _ _ _ _ _ _ _ Hca), conv2d_size_3 by lia.
  cbn [mbind option_bind relu dropout2d batch_norm Shape_ops].
  unfold ShapeOps.batch_norm. rewrite Hna, batch_norm_size_ok.
  cbn [mbind option_bind].
  rewrite (conv2d_cfg_size _ _ _ _ _ _ _ Hcb), conv2d_size_3 by lia.
  cbn [mbind option_bind relu dropout2d batch_norm Shape_ops].
  rewrite Hnb, batch_norm_size_ok. done.
Qed.

Lemma wp_outConv_init in_ch out_ch (Q : outConv → Store → Prop) σ :
  (∀ m σ',
     Conv2d_cfg (oc_conv m) = CConv2d in_ch out_ch 1 0 1 →
     (length σ ≤ length σ')%nat → Q m σ') →
  wp (outConv_init in_ch out_ch) Q σ.
Proof.
  intros HQ. unfold outConv_init.
  apply wp_bind, wp_nn_Conv2d. intros c σ1 Hc Hl1 _.
  apply wp_ret, HQ; done.
Qed.

(** [UNetVgg16.__init__]: the sizes through the network, the stage
    attributes as layers of the backbone, and the state of the backbone's
    parameters when [fixed_vgg] is set. *)
Lemma wp_UNetVgg16_init n_channels n_classes fixed_vgg
    (Q : UNetVgg16 → Store → Prop) σ :
  (∀ m σ',
     (∀ N h w, 0 < h → 0 < w →
        UNetVgg16_forward m (Size N 3 (16 * h) (16 * w))
        = Some (Size N n_classes (16 * h) (16 * w))) →
     (∀ l, l ∈ UNetVgg16_stage_layers m →
           l ∈ vgg_features (UNetVgg16_vgg16 m)) →
     (fixed_vgg = true →
      ∀ p, p ∈ VGG_parameters (UNetVgg16_vgg16 m) →
           requires_grad σ' p = false) →
     Conv2d_cfg (oc_conv (UNetVgg16_outc m)) = CConv2d 64 n_classes 1 0 1 →
     Q m σ') →
  wp (UNetVgg16_init n_channels n_classes fixed_vgg) Q σ.
Proof.
  intros HQ. unfold UNetVgg16_init. cbv zeta.
  apply wp_bind, wp_vgg16_bn. intros v σ1 Hcfg Hl1 Ha1.
  do 26 (eapply wp_bind, wp_features_at;
         [rewrite Hcfg; reflexivity | intros ? ? ?]).
  do 4 (apply wp_bind, wp_DeConvBlk_init; intros ? ? ? ?).
  apply wp_bind, wp_outConv_init. intros outc σ6 Houtc Hl6.
  apply wp_bind.
  assert (Ha6 : allocated σ6 (VGG_parameters v))
    by (eapply allocated_grows; [|exact Ha1]; lia).
  lazymatch goal with
  | |- wp _ (λ _ _, wp (mret ?r) _ _) _ =>
      assert (∀ σ7,
        (fixed_vgg = true →
         ∀ p, p ∈ VGG_parameters v → requires_grad σ7 p = false) →
        wp (mret r) Q σ7) as Hret
  end.
  { intros σ7 Hfrozen. apply wp_ret, HQ; [| |done|done].
    - intros N h' w' Hh Hw.
      replace (16 * h') with (2 * (2 * (2 * (2 * h')))) by lia.
      replace (16 * w') with (2 * (2 * (2 * (2 * w')))) by lia.
      unfold UNetVgg16_forward, outConv_forward.
      cbn [UNetVgg16_maxpool UNetVgg16_conv1a UNetVgg16_bn1a
           UNetVgg16_conv1b UNetVgg16_bn1b UNetVgg16_conv2a UNetVgg16_bn2a
           UNetVgg16_conv2b UNetVgg16_bn2b UNetVgg16_conv3a UNetVgg16_bn3a
           UNetVgg16_conv3b UNetVgg16_bn3b UNetVgg16_conv3c UNetVgg16_bn3c
           UNetVgg16_conv4a UNetVgg16_bn4a UNetVgg16_conv4b UNetVgg16_bn4b
           UNetVgg16_conv4c UNetVgg16_bn4c UNetVgg16_conv5a UNetVgg16_bn5a
           UNetVgg16_conv5b UNetVgg16_bn5b UNetVgg16_conv5c UNetVgg16_bn5c
           UNetVgg16_deconv1 UNetVgg16_deconv2 UNetVgg16_deconv3
           UNetVgg16_deconv4 UNetVgg16_outc max_pool2d Shape_ops].
      unfold ShapeOps.max_pool2d. cbn [pool_kernel pool_stride].
      repeat first
        [ rewrite max_pool2d_size_even by lia
        | erewrite conv_bn_relu_size; [|eassumption|eassumption|lia|lia]
        | match goal with
          | H : ∀ N H W, _ → _ → DeConvBlk_forward ?m _ _ = _
            |- context [DeConvBlk_forward ?m _ _] => rewrite H by lia
          end
        | rewrite (conv2d_cfg_size _ _ _ _ _ _ _ Houtc), conv2d_size_1
            by lia
        | progress cbn [mbind option_bind sigmoid Shape_ops] ].
      done.
    - intros layer. unfold UNetVgg16_stage_layers.
      cbn [UNetVgg16_vgg16 UNetVgg16_conv1a UNetVgg16_bn1a
           UNetVgg16_conv1b UNetVgg16_bn1b UNetVgg16_conv2a UNetVgg16_bn2a
           UNetVgg16_conv2b UNetVgg16_bn2b UNetVgg16_conv3a UNetVgg16_bn3a
           UNetVgg16_conv3b UNetVgg16_bn3b UNetVgg16_conv3c UNetVgg16_bn3c
           UNetVgg16_conv4a UNetVgg16_bn4a UNetVgg16_conv4b UNetVgg16_bn4b
           UNetVgg16_conv4c UNetVgg16_bn4c UNetVgg16_conv5a UNetVgg16_bn5a
           UNetVgg16_conv5b UNetVgg16_bn5b UNetVgg16_conv5c UNetVgg16_bn5c].
      rewrite !elem_of_cons, elem_of_nil. intros Hin.
      repeat (destruct Hin as [->|Hin]; [assumption|]). done. }
  destruct fixed_vgg.
  - apply wp_set_all_requires_grad, Hret. intros _ p Hp.
    by apply requires_grad_set_all.
  - apply wp_ret, Hret. done.
Qed.

(** ** Every class, constructed and run on sizes *)

Lemma multiple_of d n k : 0 < d → (d | n) → k * d ≤ n → ∃ h, n = d * h ∧ k ≤ h.
Proof. intros Hd [h ->] Hk. exists h. split; [lia|nia]. Qed.

Lemma replicate_all_equal {A} n (x a b : A) :
  a ∈ replicate n x → b ∈ replicate n x → a = b.
Proof. intros [-> _]%elem_of_replicate [-> _]%elem_of_replicate. done. Qed.

Lemma wp_instantiate cls fixed_vgg σ :
  wp (instantiate cls fixed_vgg)
     (λ m _,
        class_of m = cls
        ∧ (∀ N H W,
             (downsampling_factor cls | H) → (downsampling_factor cls | W) →
             min_side cls ≤ H → min_side cls ≤ W →
             forward m (Size N 3 H W)
             = Some (replicate (n_outputs cls) (Size N 1 H W)))
        ∧ (cls ∈ unet_family →
           ∀ (x : Shape) outs, forward m x = Some outs →
             length outs = n_outputs cls
             ∧ ∀ a b, a ∈ outs → b ∈ outs → a = b)) σ.
Proof.
  destruct cls; cbn [instantiate].
  - apply wp_bind, wp_UNet_init. intros m σ' Hm. apply wp_ret.
    split; [done|]. split.
    + intros N H W HH HW HminH HminW.
      destruct (multiple_of 16 H 2) as (h & -> & Hh); [lia|done|done|].
      destruct (multiple_of 16 W 2) as (w & -> & Hw); [lia|done|done|].
      cbn [forward]. by rewrite Hm.
    + intros _ x outs Hf. cbn [forward] in Hf.
      apply bind_Some in Hf as (y & _ & [= <-]). split; [done|].
      apply (replicate_all_equal 1).
  - apply wp_bind, wp_DUNet_init. intros m σ' Hm. apply wp_ret.
    split; [done|]. split.
    + intros N H W HH HW HminH HminW.
      destruct (multiple_of 16 H 1) as (h & -> & Hh); [lia|done|done|].
      destruct (multiple_of 16 W 1) as (w & -> & Hw); [lia|done|done|].
      cbn [forward]. by rewrite Hm by lia.
    + intros _ x outs Hf. cbn [forward] in Hf.
      apply bind_Some in Hf as (y & _ & [= <-]). split; [done|].
      apply (replicate_all_equal 1).
  - apply wp_bind, wp_CAUNet_init. intros m σ' Hm Heq. apply wp_ret.
    split; [done|]. split.
    + intros N H W HH HW HminH HminW.
      destruct (multiple_of 16 H 2) as (h & -> & Hh); [lia|done|done|].
      destruct (multiple_of 16 W 2) as (w & -> & Hw); [lia|done|done|].
      cbn [forward]. by rewrite Hm.
    + intros _ x outs Hf. cbn [forward] in Hf.
      apply bind_Some in Hf as ([xs xc] & Hf & [= <-]).
      apply Heq in Hf as <-. split; [done|].
      apply (replicate_all_equal 2).
  - apply wp_bind, wp_CADUNet_init. intros m σ' Hm Heq. apply wp_ret.
    split; [done|]. split.
    + intros N H W HH HW HminH HminW.
      destruct (multiple_of 16 H 1) as (h & -> & Hh); [lia|done|done|].
      destruct (multiple_of 16 W 1) as (w & -> & Hw); [lia|done|done|].
      cbn [forward]. by rewrite Hm by lia.
    + intros _ x outs Hf. cbn [forward] in Hf.
      apply bind_Some in Hf as ([xs xc] & Hf & [= <-]).
      apply Heq in Hf as <-. split; [done|].
      apply (replicate_all_equal 2).
  - apply wp_bind, wp_CAMUNet_init. intros m σ' Hm Heq. apply wp_ret.
    split; [done|]. split.
    + intros N H W HH HW HminH HminW.
      destruct (multiple_of 16 H 2) as (h & -> & Hh); [lia|done|done|].
      destruct (multiple_of 16 W 2) as (w & -> & Hw); [lia|done|done|].
      cbn [forward]. by rewrite Hm.
    + intros _ x outs Hf. cbn [forward] in Hf.
      apply bind_Some in Hf as ([[xs xc] xm] & Hf & [= <-]).
      apply Heq in Hf as [<- <-]. split; [done|].
      apply (replicate_all_equal 3).
  - apply wp_bind, wp_CAMDUNet_init. intros m σ' Hm Heq. apply wp_ret.
    split; [done|]. split.
    + intros N H W HH HW HminH HminW.
      destruct (multiple_of 16 H 1) as (h & -> & Hh); [lia|done|done|].
      destruct (multiple_of 16 W 1) as (w & -> & Hw); [lia|done|done|].
      cbn [forward]. by rewrite Hm by lia.
    + intros _ x outs Hf. cbn [forward] in Hf.
      apply bind_Some in Hf as ([[xs xc] xm] & Hf & [= <-]).
      apply Heq in Hf as [<- <-]. split; [done|].
      apply (replicate_all_equal 3).
  - apply wp_bind, wp_UNetVgg16_init. intros m σ' Hm _ _ _. apply wp_ret.
    split; [done|]. split.
    + intros N H W HH HW HminH HminW.
      destruct (multiple_of 32 H 1) as (h & -> & Hh); [lia|done|done|].
      destruct (multiple_of 32 W 1) as (w & -> & Hw); [lia|done|done|].
      cbn [forward].
      replace (32 * h) with (16 * (2 * h)) by lia.
      replace (32 * w) with (16 * (2 * w)) by lia.
      by rewrite Hm by lia.
    + intros Hin. exfalso. unfold unet_family in Hin.
      rewrite !elem_of_cons, elem_of_nil in Hin.
      repeat destruct Hin as [Hin|Hin]; done.
  - apply wp_bind, wp_DCAN_init. intros m σ' Hm. apply wp_ret.
    split; [done|]. split.
    + intros N H W HH HW HminH HminW.
      destruct (multiple_of 32 H 1) as (h & -> & Hh); [lia|done|done|].
      destruct (multiple_of 32 W 1) as (w & -> & Hw); [lia|done|done|].
      cbn [forward]. by rewrite Hm by lia.
    + intros Hin. exfalso. unfold unet_family in Hin.
      rewrite !elem_of_cons, elem_of_nil in Hin.
      repeat destruct Hin as [Hin|Hin]; done.
Qed.

(** ** The factory *)

Lemma M_bind_Some {A B} (c : M A) (f : A → M B) σ b σ' :
  (c ≫= f) σ = Some (b, σ') →
  ∃ a σ1, c σ = Some (a, σ1) ∧ f a σ1 = Some (b, σ').
Proof.
  unfold mbind, M_bind. destruct (c σ) as [[a σ1]|]; [|done]. eauto.
Qed.

(** Every constructor returns. *)
Lemma instantiate_total cls fixed_vgg σ :
  ∃ m σ', instantiate cls fixed_vgg σ = Some (m, σ') ∧ class_of m = cls.
Proof.
  destruct (wp_instantiate cls fixed_vgg σ) as (m & σ' & Hm & Hcls & _).
  eauto.
Qed.

(** The class [build_model] instantiates for each token it tests for,
    and for ["unet"]. *)
Lemma build_model_instantiates σ :
  build_model "unet_vgg16" σ = instantiate cls_UNetVgg16 true σ
  ∧ build_model "dcan" σ = instantiate cls_DCAN true σ
  ∧ build_model "caunet" σ = instantiate cls_CAUNet true σ
  ∧ build_model "camunet" σ = instantiate cls_CAMUNet true σ
  ∧ build_model "dunet" σ = instantiate cls_DUNet true σ
  ∧ build_model "cadunet" σ = instantiate cls_CAMDUNet true σ
  ∧ build_model "camdunet" σ = instantiate cls_CAMDUNet true σ
  ∧ build_model "unet" σ = instantiate cls_UNet true σ.
Proof. repeat split. Qed.

(** Only the token ["unet_vgg16"] yields a [UNetVgg16]. *)
Lemma build_model_UNetVgg16_inv model_name σ m σ' :
  build_model model_name σ = Some (Model_UNetVgg16 m, σ') →
  UNetVgg16_init 3 1 true σ = Some (m, σ').
Proof.
  unfold build_model. intros Hb.
  repeat match type of Hb with
    | (if ?c then _ else _) _ = _ => destruct c
    end;
    apply M_bind_Some in Hb as (a & σ1 & Ha & Hret);
    unfold mret, M_ret in Hret; congruence.
Qed.

(** C1 (the code departs from it): the token ["cadunet"] spells the class
    [CADUNet], but [build_model "cadunet"] constructs a [CAMDUNet], the
    contour-and-marker variant with three outputs. *)
Theorem build_model_cadunet σ :
  class_named "cadunet" = Some cls_CADUNet
  ∧ ∃ m σ', build_model "cadunet" σ = Some (Model_CAMDUNet m, σ')
            ∧ CAMDUNet_init σ = Some (m, σ')
            ∧ class_of (Model_CAMDUNet m) ≠ cls_CADUNet.
Proof.
  split; [done|].
  destruct (instantiate_total cls_CAMDUNet true σ) as (mdl & σ' & Hm & Hcls).
  change (instantiate cls_CAMDUNet true σ) with (build_model "cadunet" σ)
    in Hm.
  pose proof Hm as Hb.
  apply M_bind_Some in Hm as (m & σ1 & Hinit & Hret).
  unfold mret, M_ret in Hret. injection Hret as <- <-.
  exists m, σ1. done.
Qed.

(** The other seven tokens, and the default, name the class they
    construct. *)
Lemma build_model_named model_name σ :
  model_name ∈ ["unet"; "unet_vgg16"; "dcan"; "caunet"; "camunet"; "dunet";
                "camdunet"] →
  ∃ m σ', build_model model_name σ = Some (m, σ')
          ∧ class_named model_name = Some (class_of m).
Proof.
  rewrite !elem_of_cons, elem_of_nil. intros Hin.
  repeat destruct Hin as [->|Hin]; try done.
  - destruct (instantiate_total cls_UNet true σ) as (m & σ' & Hm & Hc).
    exists m, σ'. by rewrite Hc.
  - destruct (instantiate_total cls_UNetVgg16 true σ) as (m & σ' & Hm & Hc).
    exists m, σ'. by rewrite Hc.
  - destruct (instantiate_total cls_DCAN true σ) as (m & σ' & Hm & Hc).
    exists m, σ'. by rewrite Hc.
  - destruct (instantiate_total cls_CAUNet true σ) as (m & σ' & Hm & Hc).
    exists m, σ'. by rewrite Hc.
  - destruct (instantiate_total cls_CAMUNet true σ) as (m & σ' & Hm & Hc).
    exists m, σ'. by rewrite Hc.
  - destruct (instantiate_total cls_DUNet true σ) as (m & σ' & Hm & Hc).
    exists m, σ'. by rewrite Hc.
  - destruct (instantiate_total cls_CAMDUNet true σ) as (m & σ' & Hm & Hc).
    exists m, σ'. by rewrite Hc.
Qed.

(** C5: a token outside the recognized set takes the [else] branch:
    [build_model] returns, and what it returns is what
    [build_model "unet"] returns, an instance of [UNet]. *)
Theorem build_model_default model_name σ :
  model_name ∉ recognized →
  build_model model_name σ = build_model "unet" σ
  ∧ ∃ m σ', build_model model_name σ = Some (Model_UNet m, σ').
Proof.
  unfold recognized. rewrite !not_elem_of_cons.
  intros (H1 & H2 & H3 & H4 & H5 & H6 & H7 & _).
  apply String.eqb_neq in H1, H2, H3, H4, H5, H6, H7.
  assert (build_model model_name σ = build_model "unet" σ) as Heq.
  { unfold build_model at 1. by rewrite H1, H2, H3, H4, H5, H6, H7. }
  split; [done|]. rewrite Heq.
  destruct (instantiate_total cls_UNet true σ) as (mdl & σ' & Hm & Hcls).
  change (instantiate cls_UNet true σ) with (build_model "unet" σ) in Hm.
  pose proof Hm as Hb.
  apply M_bind_Some in Hm as (m & σ1 & Hinit & Hret).
  unfold mret, M_ret in Hret. injection Hret as <- <-.
  by exists m, σ1.
Qed.

Lemma build_model_default_witness :
  build_model "unknown_name" [] = build_model "unet" []
  ∧ ∃ m σ', build_model "unknown_name" [] = Some (Model_UNet m, σ').
Proof.
  apply (build_model_default "unknown_name" []).
  unfold recognized. rewrite !not_elem_of_cons, elem_of_nil.
  repeat split; try discriminate. tauto.
Defined.

(** ** Output sizes *)

(** Whatever the store, the batch size and the width: a [UNet] raises on
    an input of height 16. *)
Lemma UNet_forward_height_16_raises σ N w :
  0 < w →
  ∃ m σ', UNet_init σ = Some (m, σ')
          ∧ UNet_forward m (Size N 3 16 (16 * w)) = None.
Proof.
  intros Hw.
  change (wp UNet_init
            (λ m _, UNet_forward m (Size N 3 16 (16 * w)) = None) σ).
  unfold UNet_init. wp_blocks.
  change 16 with (2 * (2 * (2 * (2 * 1)))) at 1.
  replace (16 * w) with (2 * (2 * (2 * (2 * w)))) by lia.
  unfold UNet_forward.
  cbn [UNet_c1 UNet_c2 UNet_c3 UNet_c4 UNet_cu].
  repeat size_step.
  rewrite ConvBlock_size_1 by (by left). done.
Qed.

(** C2 (the code departs from it): 16 is a multiple of UNet's downsampling
    factor, yet [UNet.forward] raises on a (1, 3, 16, 16) input.  The
    bottom [ConvBlock] still runs its max-pooling, whose result
    [UNet.forward] drops, and there the tensor is 1x1. *)
Theorem UNet_forward_16_raises :
  (downsampling_factor cls_UNet | 16)
  ∧ ∃ m σ', instantiate cls_UNet true [] = Some (m, σ')
            ∧ forward m (Size 1 3 16 16) = None.
Proof.
  split; [by exists 1|]. eexists _, _. split; [reflexivity|].
  vm_compute. reflexivity.
Qed.

(** Every class constructs, and on an input of size (N, 3, H, W) with H
    and W multiples of the class's downsampling factor (16 for the U-Net
    family, 32 for DCAN and UNetVgg16) every returned tensor has size
    (N, 1, H, W), provided H and W are at least 32 for the classes whose
    bottom tunnel is a [ConvBlock] (UNet, CAUNet, CAMUNet). *)
Lemma forward_output_size cls fixed_vgg σ N H W :
  (downsampling_factor cls | H) → (downsampling_factor cls | W) →
  min_side cls ≤ H → min_side cls ≤ W →
  ∃ m σ', instantiate cls fixed_vgg σ = Some (m, σ')
          ∧ class_of m = cls
          ∧ forward m (Size N 3 H W)
            = Some (replicate (n_outputs cls) (Size N 1 H W)).
Proof.
  intros HH HW HminH HminW.
  destruct (wp_instantiate cls fixed_vgg σ) as (m & σ' & Hm & Hcls & Hf & _).
  exists m, σ'. auto.
Qed.

Lemma forward_output_size_witness :
  ∃ m σ', instantiate cls_CAMUNet true [] = Some (m, σ')
          ∧ class_of m = cls_CAMUNet
          ∧ forward m (Size 1 3 128 128)
            = Some (replicate 3 (Size 1 1 128 128)).
Proof.
  apply (forward_output_size cls_CAMUNet true [] 1 128 128).
  - by exists 8.
  - by exists 8.
  - vm_compute. discriminate.
  - vm_compute. discriminate.
Defined.



(** ** The blocks *)

(** With the default 3x3 kernel a constructed [DilatedConvBlock] maps
    [in_size] channels to [out_size] channels and keeps height and width,
    whatever the dilation. *)
Lemma DilatedConvBlock_keeps_size i o p a d σ N H W :
  0 < H → 0 < W →
  ∃ m σ', DilatedConvBlock_init i o 3 p a d σ = Some (m, σ')
          ∧ DilatedConvBlock_forward m (Size N i H W) = Some (Size N o H W).
Proof.
  intros HH HW.
  apply (wp_DilatedConvBlock_init i o 3 p a d
           (λ m _, DilatedConvBlock_forward m (Size N i H W)
                   = Some (Size N o H W))).
  intros m σ' Hm _. rewrite Hm. by apply DilatedConvBlock_size.
Qed.




(** Whenever [in_size] is not [2 * out_size], the forward pass on a skip
    tensor with [out_size] channels raises. *)
Lemma ConvUpBlock_forward_mismatch i o p d σ N H W :
  i ≠ 2 * o → 0 < H → 0 < W →
  ∃ m σ', ConvUpBlock_init i o p d σ = Some (m, σ')
          ∧ ConvUpBlock_forward m (Size N i H W) (Size N o (2 * H) (2 * W))
            = None.
Proof.
  intros Hi HH HW.
  apply (wp_ConvUpBlock_init i o p d
           (λ m _, ConvUpBlock_forward m (Size N i H W)
                     (Size N o (2 * H) (2 * W)) = None)).
  intros m σ' Hm _ _. rewrite Hm. unfold SizeOf.ConvUpBlock.
  rewrite conv_transpose2d_size_same by lia. cbn [mbind option_bind].
  rewrite cat1_size. cbn [mbind option_bind].
  rewrite DilatedConvBlock_size_channels by (cbn [channels]; lia). done.
Qed.



(** ** The output heads *)

Section OutputHeads.
Context {T : Type} `{TensorOps T}.











End OutputHeads.

(** ** Real-valued outputs *)




(** On tensors of one size, [+] adds element by element. *)
Lemma rtensor_add_elementwise (a b t : rtensor) n c h w :
  rshape a = rshape b →
  rtensor_add a b = Some t →
  0 ≤ n < batch (rshape a) → 0 ≤ c < channels (rshape a) →
  0 ≤ h < height (rshape a) → 0 ≤ w < width (rshape a) →
  rshape t = rshape a
  ∧ rdata t n c h w = (rdata a n c h w + rdata b n c h w)%R.
Proof.
  intros Hs Ht Hn Hc Hh Hw. unfold rtensor_add in Ht.
  rewrite <- Hs, add_size_same in Ht. cbn [mbind option_bind] in Ht.
  injection Ht as <-. cbn [rshape rdata]. split; [done|].
  unfold rtensor_at. rewrite <- Hs.
  assert (∀ d i, 0 ≤ i < d → broadcast_index d i = i) as Hb.
  { intros d i Hi. unfold broadcast_index. case_bool_decide; lia. }
  by rewrite !Hb.
Qed.

(** ** Counting parameters *)

Lemma count_parameters_foldl σ ps acc :
  foldl (λ acc p, if requires_grad σ p then acc + numel p else acc) acc ps
  = acc + trainable_numel σ ps.
Proof.
  revert acc. unfold trainable_numel.
  induction ps as [|p ps IH]; intros acc; cbn [foldl].
  - cbn. lia.
  - rewrite IH, filter_cons.
    destruct (requires_grad σ p) eqn:Hp.
    + rewrite decide_True by done. cbn [fmap list_fmap foldr]. lia.
    + rewrite decide_False by done. done.
Qed.

Lemma trainable_numel_frozen σ ps :
  (∀ p, p ∈ ps → requires_grad σ p = false) → trainable_numel σ ps = 0.
Proof.
  unfold trainable_numel. induction ps as [|p ps IH]; intros Hps; [done|].
  rewrite filter_cons, decide_False.
  - apply IH. intros q Hq. apply Hps. by right.
  - rewrite Hps; [done | by left].
Qed.

(** Parameters that do not require gradient updates can be left out. *)
Lemma trainable_numel_filter σ (P : nn_Parameter → Prop)
    `{∀ p, Decision (P p)} ps :
  (∀ p, p ∈ ps → ¬ P p → requires_grad σ p = false) →
  trainable_numel σ ps = trainable_numel σ (filter P ps).
Proof.
  unfold trainable_numel. induction ps as [|p ps IH]; intros Hps; [done|].
  assert (∀ q, q ∈ ps → ¬ P q → requires_grad σ q = false) as Hps'
    by (intros q Hq; apply Hps; by right).
  rewrite (filter_cons P). destruct (decide (P p)) as [HP|HP].
  - rewrite !filter_cons.
    destruct (decide (requires_grad σ p = true));
      cbn [fmap list_fmap foldr]; by rewrite IH.
  - rewrite filter_cons, decide_False, IH; [done..|].
    rewrite Hps; [done | by left | done].
Qed.

(** C9: [count_parameters] is the sum of the element counts of exactly
    the parameters of the model that require gradient updates.  On a
    [UNetVgg16] constructed with [fixed_vgg=True] no parameter of the
    backbone requires them, so the backbone adds 0: the count is the count
    over the parameters outside the backbone. *)
Theorem count_parameters_trainable n_channels n_classes σ m σ' σ0 model :
  UNetVgg16_init n_channels n_classes true σ = Some (m, σ') →
  count_parameters σ0 model = trainable_numel σ0 (parameters model)
  ∧ (∀ p, p ∈ VGG_parameters (UNetVgg16_vgg16 m) →
          requires_grad σ' p = false)
  ∧ trainable_numel σ' (VGG_parameters (UNetVgg16_vgg16 m)) = 0
  ∧ count_parameters σ' (Model_UNetVgg16 m)
    = trainable_numel σ'
        (filter (λ p, p ∉ VGG_parameters (UNetVgg16_vgg16 m))
                (parameters (Model_UNetVgg16 m))).
Proof.
  intros Hinit.
  assert (∀ s mdl, count_parameters s mdl
                   = trainable_numel s (parameters mdl)) as Hcount.
  { intros s mdl. unfold count_parameters.
    by rewrite count_parameters_foldl. }
  pose proof (wp_UNetVgg16_init n_channels n_classes true
                (λ m σ', ∀ p, p ∈ VGG_parameters (UNetVgg16_vgg16 m) →
                              requires_grad σ' p = false) σ) as Hwp.
  pose proof (wp_elim _ _ _ _ _ (Hwp (λ m σ' _ _ Hfr _, Hfr eq_refl)) Hinit)
    as Hfrozen. cbv beta in Hfrozen.
  split; [apply Hcount|]. split; [done|].
  split; [by apply trainable_numel_frozen|].
  rewrite Hcount. apply trainable_numel_filter.
  intros p _ Hp. apply Hfrozen.
  by destruct (decide (p ∈ VGG_parameters (UNetVgg16_vgg16 m))).
Qed.

(** From an empty store: 100 parameters, 9439617 trainable elements (the
    decoder's) when the backbone is frozen, 147805609 when it is not. *)
Lemma count_parameters_UNetVgg16 :
  (∃ m σ', UNetVgg16_init 3 1 true [] = Some (m, σ')
           ∧ length (parameters (Model_UNetVgg16 m)) = 100%nat
           ∧ count_parameters σ' (Model_UNetVgg16 m) = 9439617
           ∧ trainable_numel σ' (UNetVgg16_decoder_parameters m) = 9439617)
  ∧ (∃ m σ', UNetVgg16_init 3 1 false [] = Some (m, σ')
             ∧ count_parameters σ' (Model_UNetVgg16 m) = 147805609).
Proof.
  split; eexists _, _; (split; [reflexivity|]); vm_compute; done.
Qed.

Lemma count_parameters_trainable_witness :
  ∃ m σ',
    UNetVgg16_init 3 1 true [] = Some (m, σ')
    ∧ count_parameters σ' (Model_UNetVgg16 m)
      = trainable_numel σ' (parameters (Model_UNetVgg16 m))
    ∧ (∀ p, p ∈ VGG_parameters (UNetVgg16_vgg16 m) →
            requires_grad σ' p = false)
    ∧ trainable_numel σ' (VGG_parameters (UNetVgg16_vgg16 m)) = 0
    ∧ count_parameters σ' (Model_UNetVgg16 m)
      = trainable_numel σ'
          (filter (λ p, p ∉ VGG_parameters (UNetVgg16_vgg16 m))
                  (parameters (Model_UNetVgg16 m))).
Proof.
  let r := eval vm_compute in (UNetVgg16_init 3 1 true []) in
  lazymatch r with
  | Some (?m, ?s) =>
      exists m, s; split; [vm_compute; reflexivity|];
      apply (count_parameters_trainable 3 1 [] m s s (Model_UNetVgg16 m));
      vm_compute; reflexivity
  end.
Defined.

(** C10: a [UNetVgg16] that comes out of [build_model] was constructed as
    [UNetVgg16(3, 1, fixed_vgg=True)], which is what the token
    ["unet_vgg16"] constructs: its output convolution has 1 channel and
    no parameter of its backbone requires gradient updates. *)
Theorem build_model_unet_vgg16_frozen model_name σ m σ' :
  build_model model_name σ = Some (Model_UNetVgg16 m, σ') →
  UNetVgg16_init 3 1 true σ = Some (m, σ')
  ∧ build_model "unet_vgg16" σ = Some (Model_UNetVgg16 m, σ')
  ∧ Conv2d_cfg (oc_conv (UNetVgg16_outc m)) = CConv2d 64 1 1 0 1
  ∧ ∀ p, p ∈ VGG_parameters (UNetVgg16_vgg16 m) →
         requires_grad σ' p = false.
Proof.
  intros Hb. apply build_model_UNetVgg16_inv in Hb as Hinit.
  split; [done|]. split.
  { change (build_model "unet_vgg16" σ)
      with ((UNetVgg16_init 3 1 true
             ≫= λ m, mret (Model_UNetVgg16 m)) σ).
    unfold mbind, M_bind. by rewrite Hinit. }
  pose proof (wp_UNetVgg16_init 3 1 true
                (λ m σ',
                   Conv2d_cfg (oc_conv (UNetVgg16_outc m))
                   = CConv2d 64 1 1 0 1
                   ∧ ∀ p, p ∈ VGG_parameters (UNetVgg16_vgg16 m) →
                          requires_grad σ' p = false) σ) as Hwp.
  exact (wp_elim _ _ _ _ _
           (Hwp (λ m σ' _ _ Hfr Hout, conj Hout (Hfr eq_refl))) Hinit).
Qed.

Lemma build_model_unet_vgg16_frozen_witness :
  ∃ m σ',
    build_model "unet_vgg16" [] = Some (Model_UNetVgg16 m, σ')
    ∧ (UNetVgg16_init 3 1 true [] = Some (m, σ')
       ∧ build_model "unet_vgg16" [] = Some (Model_UNetVgg16 m, σ')
       ∧ Conv2d_cfg (oc_conv (UNetVgg16_outc m)) = CConv2d 64 1 1 0 1
       ∧ ∀ p, p ∈ VGG_parameters (UNetVgg16_vgg16 m) →
              requires_grad σ' p = false).
Proof.
  let r := eval vm_compute in (UNetVgg16_init 3 1 true []) in
  lazymatch r with
  | Some (?m, ?s) =>
      exists m, s; split; [vm_compute; reflexivity|];
      apply (build_model_unet_vgg16_frozen "unet_vgg16" [] m s);
      vm_compute; reflexivity
  end.
Defined.

(** * Input contracts and parameter accounting *)

(** ** The input contracts of the blocks *)

(** Linear arithmetic with the quotients and remainders of the sizes. *)
Ltac size_arith :=
  repeat match goal with
    | H : (_ | _) |- _ => apply Z.mod_divide in H; [|lia]
    | |- (_ | _) => apply Z.mod_divide; [lia|]
    end;
  Z.to_euclidean_division_equations; lia.

(** Decides the guard of a size function, keeping the outcome. *)
Ltac size_cases :=
  cbn [batch channels height width];
  repeat first
    [ case_bool_decide
    | match goal with
      | |- context [0 <? ?n] => destruct (Z.ltb_spec 0 n)
      | |- context [0 <=? ?n] => destruct (Z.leb_spec 0 n)
      end ];
  cbn [andb mbind option_bind batch channels height width].



Lemma batch_norm_size_spec c N C H W :
  ShapeOps.batch_norm_size c (Size N C H W)
  = if decide (C = c) then Some (Size N C H W) else None.
Proof.
  unfold ShapeOps.batch_norm_size. size_cases; case_decide; done.
Qed.









(** ** The input contracts of the U-Net family *)














(** ** The input contract of DCAN *)










(** ** The input contracts of [DeConvBlk] and [UNetVgg16] *)


Lemma pad_amount_even d : d `mod` 2 = 0 → pad_amount d = d.
Proof. intros Hd. unfold pad_amount. size_arith. Qed.

Lemma pad_amount_odd d : 0 < d → d `mod` 2 = 1 → pad_amount d = d - 1.
Proof. intros Hd Ho. unfold pad_amount. size_arith. Qed.










(** ** The range of the factory *)

(** X9: [build_model] returns for every token; it returns a [UNet] exactly
    for the tokens it does not test for, and never a [CADUNet]. *)
Theorem build_model_range model_name σ :
  ∃ mdl σ',
    build_model model_name σ = Some (mdl, σ')
    ∧ class_of mdl ≠ cls_CADUNet
    ∧ (class_of mdl = cls_UNet ↔ model_name ∉ recognized).
Proof.
  assert (∀ cls,
            cls ≠ cls_CADUNet →
            (cls = cls_UNet
             ↔ model_name ≠ "unet_vgg16" ∧ model_name ≠ "dcan"
               ∧ model_name ≠ "caunet" ∧ model_name ≠ "camunet"
               ∧ model_name ≠ "dunet" ∧ model_name ≠ "cadunet"
               ∧ model_name ≠ "camdunet") →
            build_model model_name σ = instantiate cls true σ →
            ∃ mdl σ',
              build_model model_name σ = Some (mdl, σ')
              ∧ class_of mdl ≠ cls_CADUNet
              ∧ (class_of mdl = cls_UNet ↔ model_name ∉ recognized))
    as Hcase.
  { intros cls Hne Hiff ->.
    destruct (instantiate_total cls true σ) as (m & σ' & Hm & Hc).
    exists m, σ'. rewrite Hc, Hiff. unfold recognized.
    rewrite !not_elem_of_cons, elem_of_nil. tauto. }
  unfold build_model in *.
  repeat match goal with
    | |- context [(model_name =? ?s)%string] =>
        destruct (String.eqb_spec model_name s)
    end.
  - apply (Hcase cls_UNetVgg16); [done| |done].
    split; [done|]. by intros (Hn & _).
  - apply (Hcase cls_DCAN); [done| |done].
    split; [done|]. by intros (_ & Hn & _).
  - apply (Hcase cls_CAUNet); [done| |done].
    split; [done|]. by intros (_ & _ & Hn & _).
  - apply (Hcase cls_CAMUNet); [done| |done].
    split; [done|]. by intros (_ & _ & _ & Hn & _).
  - apply (Hcase cls_DUNet); [done| |done].
    split; [done|]. by intros (_ & _ & _ & _ & Hn & _).
  - apply (Hcase cls_CAMDUNet); [done| |done].
    split; [done|]. by intros (_ & _ & _ & _ & _ & Hn & _).
  - apply (Hcase cls_CAMDUNet); [done| |done].
    split; [done|]. by intros (_ & _ & _ & _ & _ & _ & Hn).
  - apply (Hcase cls_UNet); [done| |done].
    split; [|done]. by intros _.
Qed.

(** ** Constructors create their parameters *)

Lemma wp_mono {A} (c : M A) (Q1 Q2 : A → Store → Prop) σ :
  (∀ a σ', Q1 a σ' → Q2 a σ') → wp c Q1 σ → wp c Q2 σ.
Proof. intros HQ (a & σ' & Hc & H1). exists a, σ'. auto. Qed.

Lemma wp_and {A} (c : M A) (Q1 Q2 : A → Store → Prop) σ :
  wp c Q1 σ → wp c Q2 σ → wp c (λ a σ', Q1 a σ' ∧ Q2 a σ') σ.
Proof.
  intros (a & σ' & Hc & H1) (a' & σ'' & Hc' & H2).
  exists a, σ'. split; [done|]. split; [done|]. congruence.
Qed.

Lemma fresh_nil σ : fresh σ σ [].
Proof. split; [by rewrite app_nil_r | done]. Qed.

Lemma fresh_app σ σ1 σ2 ps qs :
  fresh σ σ1 ps → fresh σ1 σ2 qs → fresh σ σ2 (ps ++ qs).
Proof.
  intros [-> Hps] [-> Hqs]. split.
  - by rewrite length_app, replicate_add, app_assoc.
  - rewrite fmap_app, length_app, seq_app, Hps, Hqs.
    by rewrite length_app, length_replicate.
Qed.

Lemma fresh_length σ σ' ps :
  fresh σ σ' ps → length σ' = (length σ + length ps)%nat.
Proof. intros [-> _]. by rewrite length_app, length_replicate. Qed.

Lemma fresh_pid σ σ' ps p :
  fresh σ σ' ps → p ∈ ps →
  (length σ ≤ pid p < length σ + length ps)%nat.
Proof.
  intros [_ Hps] Hp. apply elem_of_seq. rewrite <- Hps.
  by apply list_elem_of_fmap_2.
Qed.

Lemma fresh_NoDup σ σ' ps : fresh σ σ' ps → NoDup (pid <$> ps).
Proof. intros [_ ->]. apply NoDup_seq. Qed.

Lemma fresh_allocated σ σ' ps : fresh σ σ' ps → allocated σ' ps.
Proof.
  intros Hf p Hp. rewrite (fresh_length _ _ _ Hf).
  apply (fresh_pid _ _ _ _ Hf Hp).
Qed.

(** A parameter just created requires gradient updates. *)
Lemma fresh_requires_grad σ σ' ps p :
  fresh σ σ' ps → p ∈ ps → requires_grad σ' p = true.
Proof.
  intros Hf Hp. pose proof (fresh_pid _ _ _ _ Hf Hp) as Hpid.
  destruct Hf as [-> _]. unfold requires_grad.
  rewrite lookup_app_r by lia.
  rewrite lookup_replicate_2 by lia. done.
Qed.

(** A parameter that existed keeps its flag. *)
Lemma fresh_frame σ σ' ps q :
  fresh σ σ' ps → (pid q < length σ)%nat →
  requires_grad σ' q = requires_grad σ q.
Proof.
  intros [-> _] Hq. unfold requires_grad. by rewrite lookup_app_l.
Qed.

Lemma wp_new_parameter_fresh shape (Q : nn_Parameter → Store → Prop) σ :
  (∀ p σ', fresh σ σ' [p] → Q p σ') → wp (new_parameter shape) Q σ.
Proof. intros HQ. apply wp_new_parameter, HQ. by split. Qed.

Ltac fresh_bind lem := apply wp_bind, lem; intros ? ? ?.

Ltac fresh_solve :=
  repeat first
    [ eassumption
    | apply fresh_nil
    | eapply fresh_app; [eassumption|] ].

Ltac fresh_ret HQ :=
  lazymatch goal with
  | |- wp (mret _) _ _ => apply wp_ret, HQ
  end.

Lemma wp_nn_Conv2d_fresh i o k p d (Q : Conv2d → Store → Prop) σ :
  (∀ c σ', fresh σ σ' (Conv2d_parameters c) → Q c σ') →
  wp (nn_Conv2d i o k p d) Q σ.
Proof.
  intros HQ. unfold nn_Conv2d.
  do 2 fresh_bind wp_new_parameter_fresh. fresh_ret HQ.
  unfold Conv2d_parameters. cbn [conv_weight conv_bias].
  by eapply (fresh_app _ _ _ [_] [_]).
Qed.

Lemma wp_nn_ConvTranspose2d_fresh i o k s
    (Q : ConvTranspose2d → Store → Prop) σ :
  (∀ c σ', fresh σ σ' (ConvTranspose2d_parameters c) → Q c σ') →
  wp (nn_ConvTranspose2d i o k s) Q σ.
Proof.
  intros HQ. unfold nn_ConvTranspose2d.
  do 2 fresh_bind wp_new_parameter_fresh. fresh_ret HQ.
  unfold ConvTranspose2d_parameters. cbn [convt_weight convt_bias].
  by eapply (fresh_app _ _ _ [_] [_]).
Qed.

Lemma wp_nn_BatchNorm2d_fresh c (Q : BatchNorm2d → Store → Prop) σ :
  (∀ b σ', fresh σ σ' (BatchNorm2d_parameters b) → Q b σ') →
  wp (nn_BatchNorm2d c) Q σ.
Proof.
  intros HQ. unfold nn_BatchNorm2d.
  do 2 fresh_bind wp_new_parameter_fresh. fresh_ret HQ.
  unfold BatchNorm2d_parameters. cbn [bn_weight bn_bias].
  by eapply (fresh_app _ _ _ [_] [_]).
Qed.

Lemma wp_nn_Linear_fresh i o (Q : Linear → Store → Prop) σ :
  (∀ l σ', fresh σ σ' (Linear_parameters l) → Q l σ') →
  wp (nn_Linear i o) Q σ.
Proof.
  intros HQ. unfold nn_Linear.
  do 2 fresh_bind wp_new_parameter_fresh. fresh_ret HQ.
  unfold Linear_parameters. cbn [lin_weight lin_bias].
  by eapply (fresh_app _ _ _ [_] [_]).
Qed.

Lemma wp_DilatedConvBlock_init_fresh i o k p a d
    (Q : DilatedConvBlock → Store → Prop) σ :
  (∀ m σ', fresh σ σ' (DilatedConvBlock_parameters m) → Q m σ') →
  wp (DilatedConvBlock_init i o k p a d) Q σ.
Proof.
  intros HQ. unfold DilatedConvBlock_init.
  fresh_bind wp_nn_Conv2d_fresh. fresh_bind wp_nn_BatchNorm2d_fresh.
  fresh_ret HQ.
  unfold DilatedConvBlock_parameters. cbn [dcb_conv dcb_norm].
  fresh_solve.
Qed.

Lemma wp_ConvBlock_init_fresh i o p d (Q : ConvBlock → Store → Prop) σ :
  (∀ m σ', fresh σ σ' (ConvBlock_parameters m) → Q m σ') →
  wp (ConvBlock_init i o p d) Q σ.
Proof.
  intros HQ. unfold ConvBlock_init.
  do 2 fresh_bind wp_DilatedConvBlock_init_fresh. fresh_ret HQ.
  unfold ConvBlock_parameters. cbn [cb_block1 cb_block2].
  fresh_solve.
Qed.

Lemma wp_ConvUpBlock_init_fresh i o p d
    (Q : ConvUpBlock → Store → Prop) σ :
  (∀ m σ', fresh σ σ' (ConvUpBlock_parameters m) → Q m σ') →
  wp (ConvUpBlock_init i o p d) Q σ.
Proof.
  intros HQ. unfold ConvUpBlock_init.
  fresh_bind wp_nn_ConvTranspose2d_fresh.
  do 2 fresh_bind wp_DilatedConvBlock_init_fresh. fresh_ret HQ.
  unfold ConvUpBlock_parameters. cbn [cub_up cub_block1 cub_block2].
  fresh_solve.
Qed.

Lemma wp_DeConvBlk_init_fresh i o p (Q : DeConvBlk → Store → Prop) σ :
  (∀ m σ', fresh σ σ' (DeConvBlk_parameters m) → Q m σ') →
  wp (DeConvBlk_init i o p) Q σ.
Proof.
  intros HQ. unfold DeConvBlk_init.
  fresh_bind wp_nn_ConvTranspose2d_fresh.
  fresh_bind wp_nn_Conv2d_fresh. fresh_bind wp_nn_BatchNorm2d_fresh.
  fresh_bind wp_nn_Conv2d_fresh. fresh_bind wp_nn_BatchNorm2d_fresh.
  fresh_ret HQ.
  unfold DeConvBlk_parameters, Sequential_parameters.
  cbn [dcv_upscaling dcv_convs map concat Layer_parameters app].
  fresh_solve.
Qed.

Lemma wp_outConv_init_fresh i o (Q : outConv → Store → Prop) σ :
  (∀ m σ', fresh σ σ' (outConv_parameters m) → Q m σ') →
  wp (outConv_init i o) Q σ.
Proof.
  intros HQ. unfold outConv_init.
  fresh_bind wp_nn_Conv2d_fresh. fresh_ret HQ.
  unfold outConv_parameters. cbn [oc_conv]. fresh_solve.
Qed.

Lemma wp_dcanConv_init_fresh i o p (Q : dcanConv → Store → Prop) σ :
  (∀ m σ', fresh σ σ' (dcanConv_parameters m) → Q m σ') →
  wp (dcanConv_init i o p) Q σ.
Proof.
  intros HQ. unfold dcanConv_init.
  fresh_bind wp_nn_Conv2d_fresh. fresh_bind wp_nn_BatchNorm2d_fresh.
  fresh_ret HQ.
  unfold dcanConv_parameters, Sequential_parameters.
  cbn [dc_conv map concat Layer_parameters app].
  fresh_solve.
Qed.

Lemma wp_dcanDeConv_init_fresh i o f p
    (Q : dcanDeConv → Store → Prop) σ :
  (∀ m σ', fresh σ σ' (dcanDeConv_parameters m) → Q m σ') →
  wp (dcanDeConv_init i o f p) Q σ.
Proof.
  intros HQ. unfold dcanDeConv_init.
  fresh_bind wp_nn_ConvTranspose2d_fresh.
  fresh_bind wp_dcanConv_init_fresh. fresh_ret HQ.
  unfold dcanDeConv_parameters. cbn [dd_upscaling dd_conv].
  fresh_solve.
Qed.

Lemma wp_UNet_init_fresh (Q : UNet → Store → Prop) σ :
  (∀ m σ', fresh σ σ' (UNet_parameters m) → Q m σ') → wp UNet_init Q σ.
Proof.
  intros HQ. unfold UNet_init.
  do 5 fresh_bind wp_ConvBlock_init_fresh.
  do 4 fresh_bind wp_ConvUpBlock_init_fresh.
  fresh_bind wp_nn_Conv2d_fresh. fresh_ret HQ.
  unfold UNet_parameters.
  cbn [UNet_c1 UNet_c2 UNet_c3 UNet_c4 UNet_cu UNet_u5 UNet_u6 UNet_u7
       UNet_u8 UNet_ce].
  fresh_solve.
Qed.

Lemma wp_DUNet_init_fresh (Q : DUNet → Store → Prop) σ :
  (∀ m σ', fresh σ σ' (DUNet_parameters m) → Q m σ') → wp DUNet_init Q σ.
Proof.
  intros HQ. unfold DUNet_init.
  do 4 fresh_bind wp_ConvBlock_init_fresh.
  do 4 fresh_bind wp_DilatedConvBlock_init_fresh.
  do 4 fresh_bind wp_ConvUpBlock_init_fresh.
  fresh_bind wp_nn_Conv2d_fresh. fresh_ret HQ.
  unfold DUNet_parameters.
  cbn [DUNet_c1 DUNet_c2 DUNet_c3 DUNet_c4 DUNet_d1 DUNet_d2 DUNet_d3
       DUNet_d4 DUNet_u5 DUNet_u6 DUNet_u7 DUNet_u8 DUNet_ce].
  fresh_solve.
Qed.

Lemma wp_CAUNet_init_fresh (Q : CAUNet → Store → Prop) σ :
  (∀ m σ', fresh σ σ' (CAUNet_parameters m) → Q m σ') →
  wp CAUNet_init Q σ.
Proof.
  intros HQ. unfold CAUNet_init.
  do 5 fresh_bind wp_ConvBlock_init_fresh.
  do 2 (do 4 fresh_bind wp_ConvUpBlock_init_fresh;
        fresh_bind wp_nn_Conv2d_fresh).
  fresh_ret HQ.
  unfold CAUNet_parameters.
  cbn [CAUNet_c1 CAUNet_c2 CAUNet_c3 CAUNet_c4 CAUNet_cu
       CAUNet_u5s CAUNet_u6s CAUNet_u7s CAUNet_u8s CAUNet_ces
       CAUNet_u5c CAUNet_u6c CAUNet_u7c CAUNet_u8c CAUNet_cec].
  fresh_solve.
Qed.

Lemma wp_CADUNet_init_fresh (Q : CADUNet → Store → Prop) σ :
  (∀ m σ', fresh σ σ' (CADUNet_parameters m) → Q m σ') →
  wp CADUNet_init Q σ.
Proof.
  intros HQ. unfold CADUNet_init.
  do 4 fresh_bind wp_ConvBlock_init_fresh.
  do 4 fresh_bind wp_DilatedConvBlock_init_fresh.
  do 2 (do 4 fresh_bind wp_ConvUpBlock_init_fresh;
        fresh_bind wp_nn_Conv2d_fresh).
  fresh_ret HQ.
  unfold CADUNet_parameters.
  cbn [CADUNet_c1 CADUNet_c2 CADUNet_c3 CADUNet_c4
       CADUNet_d1 CADUNet_d2 CADUNet_d3 CADUNet_d4
       CADUNet_u5s CADUNet_u6s CADUNet_u7s CADUNet_u8s CADUNet_ces
       CADUNet_u5c CADUNet_u6c CADUNet_u7c CADUNet_u8c CADUNet_cec].
  fresh_solve.
Qed.

Lemma wp_CAMUNet_init_fresh (Q : CAMUNet → Store → Prop) σ :
  (∀ m σ', fresh σ σ' (CAMUNet_parameters m) → Q m σ') →
  wp CAMUNet_init Q σ.
Proof.
  intros HQ. unfold CAMUNet_init.
  do 5 fresh_bind wp_ConvBlock_init_fresh.
  do 3 (do 4 fresh_bind wp_ConvUpBlock_init_fresh;
        fresh_bind wp_nn_Conv2d_fresh).
  fresh_ret HQ.
  unfold CAMUNet_parameters.
  cbn [CAMUNet_c1 CAMUNet_c2 CAMUNet_c3 CAMUNet_c4 CAMUNet_cu
       CAMUNet_u5s CAMUNet_u6s CAMUNet_u7s CAMUNet_u8s CAMUNet_ces
       CAMUNet_u5c CAMUNet_u6c CAMUNet_u7c CAMUNet_u8c CAMUNet_cec
       CAMUNet_u5m CAMUNet_u6m CAMUNet_u7m CAMUNet_u8m CAMUNet_cem].
  fresh_solve.
Qed.

Lemma wp_CAMDUNet_init_fresh (Q : CAMDUNet → Store → Prop) σ :
  (∀ m σ', fresh σ σ' (CAMDUNet_parameters m) → Q m σ') →
  wp CAMDUNet_init Q σ.
Proof.
  intros HQ. unfold CAMDUNet_init.
  do 4 fresh_bind wp_ConvBlock_init_fresh.
  do 4 fresh_bind wp_DilatedConvBlock_init_fresh.
  do 3 (do 4 fresh_bind wp_ConvUpBlock_init_fresh;
        fresh_bind wp_nn_Conv2d_fresh).
  fresh_ret HQ.
  unfold CAMDUNet_parameters.
  cbn [CAMDUNet_c1 CAMDUNet_c2 CAMDUNet_c3 CAMDUNet_c4
       CAMDUNet_d1 CAMDUNet_d2 CAMDUNet_d3 CAMDUNet_d4
       CAMDUNet_u5s CAMDUNet_u6s CAMDUNet_u7s CAMDUNet_u8s CAMDUNet_ces
       CAMDUNet_u5c CAMDUNet_u6c CAMDUNet_u7c CAMDUNet_u8c CAMDUNet_cec
       CAMDUNet_u5m CAMDUNet_u6m CAMDUNet_u7m CAMDUNet_u8m CAMDUNet_cem].
  fresh_solve.
Qed.

Lemma wp_DCAN_init_fresh n_channels n_classes (Q : DCAN → Store → Prop) σ :
  (∀ m σ', fresh σ σ' (DCAN_parameters m) → Q m σ') →
  wp (DCAN_init n_channels n_classes) Q σ.
Proof.
  intros HQ. unfold DCAN_init. cbv zeta.
  do 6 fresh_bind wp_dcanConv_init_fresh.
  do 6 fresh_bind wp_dcanDeConv_init_fresh.
  fresh_ret HQ.
  unfold DCAN_parameters.
  cbn [DCAN_conv1 DCAN_conv2 DCAN_conv3 DCAN_conv4 DCAN_conv5 DCAN_conv6
       DCAN_deconv3s DCAN_deconv3c DCAN_deconv2s DCAN_deconv2c
       DCAN_deconv1s DCAN_deconv1c].
  fresh_solve.
Qed.

Lemma wp_make_layers_fresh cfg in_channels
    (Q : list Layer → Store → Prop) σ :
  (∀ ls σ', fresh σ σ' (Sequential_parameters ls) → Q ls σ') →
  wp (make_layers cfg in_channels) Q σ.
Proof.
  revert in_channels Q σ.
  induction cfg as [|[v|] cfg IH]; intros in_channels Q σ HQ;
    cbn [make_layers].
  - apply wp_ret, HQ, fresh_nil.
  - fresh_bind wp_nn_Conv2d_fresh. fresh_bind wp_nn_BatchNorm2d_fresh.
    fresh_bind IH. fresh_ret HQ.
    unfold Sequential_parameters in *.
    cbn [map concat Layer_parameters app]. fresh_solve.
  - fresh_bind IH. fresh_ret HQ.
    unfold Sequential_parameters in *.
    cbn [map concat Layer_parameters app]. fresh_solve.
Qed.

Lemma wp_vgg16_bn_fresh (Q : VGG → Store → Prop) σ :
  (∀ v σ', fresh σ σ' (VGG_parameters v) → Q v σ') → wp vgg16_bn Q σ.
Proof.
  intros HQ. unfold vgg16_bn.
  fresh_bind wp_make_layers_fresh.
  do 3 fresh_bind wp_nn_Linear_fresh. fresh_ret HQ.
  unfold VGG_parameters.
  cbn [vgg_features vgg_classifier].
  eapply fresh_app; [eassumption|].
  unfold Sequential_parameters.
  cbn [map concat Layer_parameters app]. fresh_solve.
Qed.

(** [UNetVgg16.__init__] creates the backbone's parameters, then the
    decoder's; the stage attributes are layers of the backbone; freezing
    is the last step. *)
Lemma wp_UNetVgg16_init_fresh n_channels n_classes (fixed_vgg : bool)
    (Q : UNetVgg16 → Store → Prop) σ :
  (∀ (m : UNetVgg16) (σ1 σ' : Store),
     fresh σ σ1 (VGG_parameters (UNetVgg16_vgg16 m)
                 ++ UNetVgg16_decoder_parameters m) →
     (∀ l, l ∈ UNetVgg16_stage_layers m →
           l ∈ vgg_features (UNetVgg16_vgg16 m)) →
     σ' = (if fixed_vgg
           then foldl (λ σ p, set_requires_grad false p σ) σ1
                  (VGG_parameters (UNetVgg16_vgg16 m))
           else σ1) →
     Q m σ') →
  wp (UNetVgg16_init n_channels n_classes fixed_vgg) Q σ.
Proof.
  intros HQ. unfold UNetVgg16_init. cbv zeta.
  apply wp_bind.
  eapply wp_mono;
    [|apply wp_and;
      [apply (wp_vgg16_bn
                (λ v _, Layer_cfg <$> vgg_features v
                        = make_layers_cfg cfg_D 3));
       intros v σ1 Hcfg _ _; exact Hcfg
      |apply (wp_vgg16_bn_fresh (λ v σ1, fresh σ σ1 (VGG_parameters v)));
       intros v σ1 Hf; exact Hf]].
  cbv beta. intros v σ1 [Hcfg Hv].
  do 26 (eapply wp_bind, wp_features_at;
         [rewrite Hcfg; reflexivity | intros ? ? ?]).
  do 4 fresh_bind wp_DeConvBlk_init_fresh.
  fresh_bind wp_outConv_init_fresh.
  apply wp_bind.
  lazymatch goal with
  | |- wp _ (λ _ _, wp (mret ?r) _ _) ?s =>
      assert (∀ σ7,
        σ7 = (if fixed_vgg
              then foldl (λ σ p, set_requires_grad false p σ) s
                     (VGG_parameters v)
              else s) →
        wp (mret r) Q σ7) as Hret
  end.
  { intros σ7 Hσ7. eapply wp_ret, HQ; [| |exact Hσ7].
    - unfold UNetVgg16_decoder_parameters.
      cbn [UNetVgg16_vgg16 UNetVgg16_deconv1 UNetVgg16_deconv2
           UNetVgg16_deconv3 UNetVgg16_deconv4 UNetVgg16_outc].
      fresh_solve.
    - intros layer. unfold UNetVgg16_stage_layers.
      cbn [UNetVgg16_vgg16 UNetVgg16_conv1a UNetVgg16_bn1a
           UNetVgg16_conv1b UNetVgg16_bn1b UNetVgg16_conv2a UNetVgg16_bn2a
           UNetVgg16_conv2b UNetVgg16_bn2b UNetVgg16_conv3a UNetVgg16_bn3a
           UNetVgg16_conv3b UNetVgg16_bn3b UNetVgg16_conv3c UNetVgg16_bn3c
           UNetVgg16_conv4a UNetVgg16_bn4a UNetVgg16_conv4b UNetVgg16_bn4b
           UNetVgg16_conv4c UNetVgg16_bn4c UNetVgg16_conv5a UNetVgg16_bn5a
           UNetVgg16_conv5b UNetVgg16_bn5b UNetVgg16_conv5c UNetVgg16_bn5c].
      rewrite !elem_of_cons, elem_of_nil. intros Hin.
      repeat (destruct Hin as [->|Hin]; [assumption|]). done. }
  destruct fixed_vgg.
  - by apply wp_set_all_requires_grad, Hret.
  - by apply wp_ret, Hret.
Qed.

(** ** What [parameters()] yields *)

Lemma yield_once_NoDup memo ps :
  NoDup (pid <$> ps) → (∀ p, p ∈ ps → pid p ∉ memo) →
  yield_once memo ps = ps.
Proof.
  revert memo. induction ps as [|p ps IH]; intros memo Hnd Hm; [done|].
  cbn [yield_once]. rewrite fmap_cons in Hnd.
  apply NoDup_cons in Hnd as [Hp Hnd].
  rewrite decide_False by (apply Hm; left).
  f_equal. apply IH; [done|].
  intros q Hq. rewrite elem_of_union, elem_of_singleton.
  intros [Heq|Hin].
  - apply Hp. rewrite <- Heq. by apply list_elem_of_fmap_2.
  - apply (Hm q); [by right | done].
Qed.

(** Parameters already seen are skipped. *)
Lemma yield_once_skip memo ps qs :
  (∀ p, p ∈ ps → pid p ∈ memo) →
  yield_once memo (ps ++ qs) = yield_once memo qs.
Proof.
  induction ps as [|p ps IH]; intros Hm; [done|].
  cbn [app yield_once]. rewrite decide_True by (apply Hm; left).
  apply IH. intros q Hq. apply Hm. by right.
Qed.

(** Modules registered a second time add nothing: with [shared] made of
    parameters of [first], [first ++ shared ++ rest] yields
    [first ++ rest]. *)
Lemma yield_once_shared memo first shared rest :
  NoDup (pid <$> (first ++ rest)) →
  (∀ p, p ∈ first ++ rest → pid p ∉ memo) →
  (∀ p, p ∈ shared → pid p ∈ memo ∨ pid p ∈ pid <$> first) →
  yield_once memo (first ++ shared ++ rest) = first ++ rest.
Proof.
  revert memo. induction first as [|v first IH]; intros memo Hnd Hm Hs.
  - cbn [app] in *. rewrite yield_once_skip.
    + by apply yield_once_NoDup.
    + intros p Hp. destruct (Hs p Hp) as [?|Hin]; [done|].
      by apply elem_of_nil in Hin.
  - cbn [app yield_once] in *. rewrite fmap_cons in Hnd.
    apply NoDup_cons in Hnd as [Hv Hnd].
    rewrite decide_False by (apply Hm; left).
    f_equal. apply IH; [done| |].
    + intros q Hq. rewrite elem_of_union, elem_of_singleton.
      intros [Heq|Hin].
      * apply Hv. rewrite <- Heq. by apply list_elem_of_fmap_2.
      * apply (Hm q); [by right | done].
    + intros q Hq. rewrite elem_of_union, elem_of_singleton.
      destruct (Hs q Hq) as [?|Hin]; [by left; right|].
      rewrite fmap_cons in Hin. apply elem_of_cons in Hin as [->|Hin].
      * by left; left.
      * by right.
Qed.

Lemma elem_of_Sequential_parameters p ls :
  p ∈ Sequential_parameters ls ↔ ∃ l, l ∈ ls ∧ p ∈ Layer_parameters l.
Proof.
  unfold Sequential_parameters. induction ls as [|l ls IH]; cbn [map concat].
  - rewrite elem_of_nil. split; [done|]. intros (l & Hl & _).
    by apply elem_of_nil in Hl.
  - rewrite elem_of_app, IH. split.
    + intros [Hp|(l' & Hl' & Hp)].
      * exists l. split; [by left | done].
      * exists l'. split; [by right | done].
    + intros (l' & Hl' & Hp). apply elem_of_cons in Hl' as [->|Hl'].
      * by left.
      * right. by exists l'.
Qed.

(** ** Counting *)

Lemma requires_grad_set_all_other b ps q σ :
  (∀ p, p ∈ ps → pid p ≠ pid q) →
  requires_grad (foldl (λ σ p, set_requires_grad b p σ) σ ps) q
  = requires_grad σ q.
Proof.
  revert σ. induction ps as [|p ps IH]; intros σ Hne; [done|].
  cbn [foldl]. rewrite IH by (intros r Hr; apply Hne; by right).
  apply requires_grad_set_ne, Hne. by left.
Qed.

Lemma trainable_numel_all σ ps :
  (∀ p, p ∈ ps → requires_grad σ p = true) →
  trainable_numel σ ps = total_numel ps.
Proof.
  unfold trainable_numel, total_numel.
  induction ps as [|p ps IH]; intros Hps; [done|].
  rewrite filter_cons, decide_True by (apply Hps; by left).
  cbn [fmap list_fmap foldr]. f_equal.
  apply IH. intros q Hq. apply Hps. by right.
Qed.

Lemma trainable_numel_app σ ps qs :
  trainable_numel σ (ps ++ qs)
  = trainable_numel σ ps + trainable_numel σ qs.
Proof.
  unfold trainable_numel. rewrite filter_app, fmap_app, foldr_app.
  generalize (foldr Z.add 0
                (numel <$> filter (λ p, requires_grad σ p = true) qs)).
  induction (numel <$> filter (λ p, requires_grad σ p = true) ps)
    as [|x xs IH]; intros z; cbn [foldr]; [lia|].
  rewrite IH. lia.
Qed.

Lemma count_parameters_fresh σ σ' m :
  parameters m = registered_parameters m →
  fresh σ σ' (registered_parameters m) →
  fresh σ σ' (parameters m)
  ∧ (∀ p, p ∈ registered_parameters m → requires_grad σ' p = true)
  ∧ count_parameters σ' m = total_numel (parameters m).
Proof.
  intros Hp Hf. rewrite Hp. split; [done|].
  split; [intros p; apply (fresh_requires_grad _ _ _ _ Hf)|].
  unfold count_parameters. rewrite count_parameters_foldl, Hp.
  rewrite trainable_numel_all; [lia|].
  intros p. apply (fresh_requires_grad _ _ _ _ Hf).
Qed.

Lemma parameters_fresh σ σ' m :
  fresh σ σ' (registered_parameters m) →
  parameters m = registered_parameters m.
Proof.
  intros Hf. unfold parameters. apply yield_once_NoDup.
  - by eapply fresh_NoDup.
  - intros p _. apply not_elem_of_empty.
Qed.

(** The parameters [parameters()] yields on a [UNetVgg16]: the backbone's,
    then the decoder's; the stage attributes add nothing. *)
Lemma parameters_UNetVgg16 σ σ1 m :
  fresh σ σ1 (VGG_parameters (UNetVgg16_vgg16 m)
              ++ UNetVgg16_decoder_parameters m) →
  (∀ l, l ∈ UNetVgg16_stage_layers m →
        l ∈ vgg_features (UNetVgg16_vgg16 m)) →
  parameters (Model_UNetVgg16 m)
  = VGG_parameters (UNetVgg16_vgg16 m) ++ UNetVgg16_decoder_parameters m.
Proof.
  intros Hf Hstage. unfold parameters.
  cbn [registered_parameters]. unfold UNetVgg16_parameters.
  apply yield_once_shared.
  - by eapply fresh_NoDup.
  - intros p _. apply not_elem_of_empty.
  - intros p Hp. right. apply list_elem_of_fmap_2.
    apply elem_of_Sequential_parameters in Hp as (l & Hl & Hp).
    unfold VGG_parameters. apply elem_of_app. left.
    apply elem_of_Sequential_parameters. exists l. auto.
Qed.

(** X10: constructing a model of any class (a [UNetVgg16] with
    [fixed_vgg=False]) creates exactly the parameters that [parameters()]
    yields on it, in that order, each a new object requiring gradient
    updates, and leaves the parameters that existed as they were;
    [count_parameters] of the model is then the number of elements of all
    its parameters. *)
Theorem instantiate_parameters_fresh cls fixed_vgg σ :
  (cls = cls_UNetVgg16 → fixed_vgg = false) →
  ∃ m σ',
    instantiate cls fixed_vgg σ = Some (m, σ')
    ∧ fresh σ σ' (parameters m)
    ∧ (∀ p, p ∈ registered_parameters m → requires_grad σ' p = true)
    ∧ count_parameters σ' m = total_numel (parameters m).
Proof.
  intros Hfixed.
  assert (∀ (c : M Model),
            wp c (λ m σ', fresh σ σ' (registered_parameters m)) σ →
            ∃ m σ',
              c σ = Some (m, σ')
              ∧ fresh σ σ' (parameters m)
              ∧ (∀ p, p ∈ registered_parameters m →
                      requires_grad σ' p = true)
              ∧ count_parameters σ' m = total_numel (parameters m))
    as Hcase.
  { intros c (m & σ' & Hc & Hf). exists m, σ'. split; [done|].
    apply count_parameters_fresh; [|done]. by eapply parameters_fresh. }
  destruct cls; cbn [instantiate].
  - apply Hcase. fresh_bind wp_UNet_init_fresh. by apply wp_ret.
  - apply Hcase. fresh_bind wp_DUNet_init_fresh. by apply wp_ret.
  - apply Hcase. fresh_bind wp_CAUNet_init_fresh. by apply wp_ret.
  - apply Hcase. fresh_bind wp_CADUNet_init_fresh. by apply wp_ret.
  - apply Hcase. fresh_bind wp_CAMUNet_init_fresh. by apply wp_ret.
  - apply Hcase. fresh_bind wp_CAMDUNet_init_fresh. by apply wp_ret.
  - rewrite (Hfixed eq_refl).
    destruct (wp_UNetVgg16_init_fresh 3 1 false
                (λ m σ',
                   fresh σ σ' (VGG_parameters (UNetVgg16_vgg16 m)
                               ++ UNetVgg16_decoder_parameters m)
                   ∧ ∀ l, l ∈ UNetVgg16_stage_layers m →
                          l ∈ vgg_features (UNetVgg16_vgg16 m)) σ)
      as (m & σ' & Hinit & Hf & Hstage).
    { intros m σ1 σ' Hf Hstage ->. done. }
    exists (Model_UNetVgg16 m), σ'.
    pose proof (parameters_UNetVgg16 _ _ _ Hf Hstage) as Hp.
    split; [unfold mbind, M_bind; by rewrite Hinit|].
    rewrite Hp. split; [done|].
    assert (∀ p, p ∈ registered_parameters (Model_UNetVgg16 m) →
                 requires_grad σ' p = true) as Hall.
    { intros p. cbn [registered_parameters]. unfold UNetVgg16_parameters.
      rewrite !elem_of_app. intros [Hv|[Hs|Hd]].
      - apply (fresh_requires_grad _ _ _ _ Hf), elem_of_app. by left.
      - apply (fresh_requires_grad _ _ _ _ Hf), elem_of_app. left.
        apply elem_of_Sequential_parameters in Hs as (l & Hl & Hs).
        unfold VGG_parameters. apply elem_of_app. left.
        apply elem_of_Sequential_parameters. exists l. auto.
      - apply (fresh_requires_grad _ _ _ _ Hf), elem_of_app. by right. }
    split; [done|].
    unfold count_parameters. rewrite count_parameters_foldl, Hp.
    rewrite trainable_numel_all; [lia|].
    intros p. apply (fresh_requires_grad _ _ _ _ Hf).
  - apply Hcase. fresh_bind wp_DCAN_init_fresh. by apply wp_ret.
Qed.

Lemma instantiate_parameters_fresh_witness :
  (cls_DCAN = cls_UNetVgg16 → true = false)
  ∧ ∃ m σ',
      instantiate cls_DCAN true [] = Some (m, σ')
      ∧ fresh [] σ' (parameters m)
      ∧ (∀ p, p ∈ registered_parameters m → requires_grad σ' p = true)
      ∧ count_parameters σ' m = total_numel (parameters m).
Proof.
  split; [discriminate|].
  apply (instantiate_parameters_fresh cls_DCAN true []). discriminate.
Defined.

(** X11: on a [UNetVgg16] constructed with [fixed_vgg=True], in any store,
    [parameters()] yields the backbone's parameters and then the decoder's,
    each once although the stage attributes name backbone layers a second
    time; the decoder's parameters all require gradient updates, the
    backbone's do not, and [count_parameters] is the number of elements of
    the decoder's parameters. *)
Theorem UNetVgg16_frozen_parameters n_channels n_classes σ :
  ∃ m σ',
    UNetVgg16_init n_channels n_classes true σ = Some (m, σ')
    ∧ parameters (Model_UNetVgg16 m)
      = VGG_parameters (UNetVgg16_vgg16 m) ++ UNetVgg16_decoder_parameters m
    ∧ NoDup (pid <$> parameters (Model_UNetVgg16 m))
    ∧ (∀ p, p ∈ VGG_parameters (UNetVgg16_vgg16 m) →
            requires_grad σ' p = false)
    ∧ (∀ p, p ∈ UNetVgg16_decoder_parameters m →
            requires_grad σ' p = true)
    ∧ count_parameters σ' (Model_UNetVgg16 m)
      = total_numel (UNetVgg16_decoder_parameters m).
Proof.
  destruct (wp_UNetVgg16_init_fresh n_channels n_classes true
              (λ m σ',
                 ∃ σ1,
                   fresh σ σ1 (VGG_parameters (UNetVgg16_vgg16 m)
                               ++ UNetVgg16_decoder_parameters m)
                   ∧ (∀ l, l ∈ UNetVgg16_stage_layers m →
                           l ∈ vgg_features (UNetVgg16_vgg16 m))
                   ∧ σ' = foldl (λ σ p, set_requires_grad false p σ) σ1
                            (VGG_parameters (UNetVgg16_vgg16 m))) σ)
    as (m & σ' & Hinit & σ1 & Hf & Hstage & Hσ').
  { intros m σ1 σ' Hf Hstage ->. by exists σ1. }
  exists m, σ'. split; [done|].
  pose proof (parameters_UNetVgg16 _ _ _ Hf Hstage) as Hp.
  pose proof (fresh_NoDup _ _ _ Hf) as Hnd.
  assert (∀ p, p ∈ VGG_parameters (UNetVgg16_vgg16 m) →
               requires_grad σ' p = false) as Hfrozen.
  { intros p Hin. rewrite Hσ'. apply requires_grad_set_all; [|done].
    intros q Hq. apply (fresh_allocated _ _ _ Hf), elem_of_app. by left. }
  assert (∀ p, p ∈ UNetVgg16_decoder_parameters m →
               requires_grad σ' p = true) as Hdecoder.
  { intros p Hin. rewrite Hσ', requires_grad_set_all_other.
    - apply (fresh_requires_grad _ _ _ _ Hf), elem_of_app. by right.
    - intros q Hq Heq. rewrite fmap_app in Hnd.
      apply NoDup_app in Hnd as (_ & Hdisj & _).
      apply (Hdisj (pid q)); [by apply list_elem_of_fmap_2|].
      rewrite Heq. by apply list_elem_of_fmap_2. }
  rewrite Hp. repeat split; try done.
  unfold count_parameters.
  rewrite count_parameters_foldl, Hp, trainable_numel_app.
  rewrite trainable_numel_frozen by done.
  rewrite trainable_numel_all by done. lia.
Qed.
